(** * The sell screen of ln-exchange: [SellTabContentProcess]

    A shallow embedding of
    [src/components/tabs/sell-tab-content/sell.process.tsx].

    The React component is modelled as a state record (one field per
    [useState] cell, the form values of [useForm], the debounced snapshot of
    [useDebounce]) together with the promises that are still pending.  Every
    effect, promise callback and event handler of the component is a function
    on that record; [step] dispatches one event of the browser's single
    threaded event loop to them.  Strings are byte strings (UTF-8). *)

From Stdlib Require Import ZArith List Bool String Ascii Lia DecimalString.
Import ListNotations.
Local Open Scope string_scope.
Local Open Scope list_scope.

(** ** JavaScript values *)

(** The operations the component performs on JavaScript numbers.  The
    component never does arithmetic: it compares ([>]), converts from strings
    ([Number(s)]) and prints inside template literals.  Everything below is
    proved for every implementation of this interface. *)
Class JsNumber : Type := {
  number : Type;
  num_NaN : number;
  num_zero : number;
  num_gt : number -> number -> bool;
  num_toString : number -> string;
  toNumber : string -> number;
  num_gt_NaN_l : forall y, num_gt num_NaN y = false
}.

(** Truthiness of a string: only the empty string is falsy. *)
Definition truthy (s : string) : bool := negb (String.eqb s "").

(** Truthiness of [string | undefined]. *)
Definition truthy_opt (o : option string) : bool :=
  match o with
  | Some s => truthy s
  | None => false
  end.

(** Truthiness of [object | undefined]. *)
Definition present {A : Type} (o : option A) : bool :=
  match o with
  | Some _ => true
  | None => false
  end.

(** [x ?? d] *)
Definition nullish {A : Type} (o : option A) (d : A) : A :=
  match o with
  | Some x => x
  | None => d
  end.

Fixpoint remove_nth {A : Type} (i : nat) (l : list A) : list A :=
  match l, i with
  | [], _ => []
  | _ :: t, O => t
  | x :: t, S j => x :: remove_nth j t
  end.

(** ** Data model *)

Record Fiat : Type := { fiat_id : Z; fiat_name : string }.

Record Asset : Type := { asset_id : Z; asset_name : string }.

Record BankAccount : Type := {
  bank_id : Z;
  iban : string;
  preferredCurrency : option Fiat
}.

(** [DeepPartial<FormData>]: what [useWatch] returns.  [validateData] hands
    the very same object back, cast to [FormData]. *)
Record FormData : Type := {
  bankAccount : option BankAccount;
  asset : option Asset;
  currency : option Fiat;
  amount : option string
}.

Record PaymentInformation : Type := {
  pi_estimatedAmount : string;
  pi_fee : string;
  pi_minFee : option string;
  pi_paymentRequest : string
}.

(** What a rejected [receiveFor] carries.  The fields are optional so that
    errors which are not [ApiError]s (a network failure) are covered too. *)
Record ApiError : Type := {
  statusCode : option Z;
  message : option string
}.

Inductive Phase : Type := Entering | Completing | Completed.

(** The hooks the component consumes synchronously.  Their code is not part
    of this file of the repository, so they are parameters. *)
Class Hooks {N : JsNumber} : Type := {
  isAllowedToSell : number -> bool;
  toSymbol : Fiat -> string;
  formatAmountCrypto : number -> string
}.

Section Screen.

Context {N : JsNumber}.

(** The [Sell] quote of the API. *)
Record Sell : Type := {
  estimatedAmount : number;
  fee : number;
  minFeeTarget : number;
  minVolume : number;
  paymentRequest : option string
}.

(** A [receiveFor] promise that has not settled: the variables its callbacks
    close over ([amount], [validatedData.asset.name] and the [data] of the
    render that started it). *)
Record QuoteRequest : Type := {
  q_amount : number;
  q_assetName : string;
  q_data : FormData
}.

(** Calls made to the outside world, in order. *)
Inductive Call : Type :=
| CallReceiveFor (i : string) (c : Fiat) (a : number) (s : Asset)
| CallUpdateAccount (id : Z) (preferred : option Fiat)
| CallSendPayment (request : string).

Record State : Type := {
  customAmountError : option string;
  isLoading : bool;
  isCompleting : bool;
  isCompleted : bool;
  kycRequired : bool;
  paymentInfo : option PaymentInformation;
  data : FormData;
  debounced : FormData;
  quotesInFlight : list QuoteRequest;
  updatesInFlight : list PaymentInformation;
  sendsInFlight : nat;
  calls : list Call
}.

(** *** State setters *)

Definition setCustomAmountError (v : option string) (st : State) : State :=
  {| customAmountError := v; isLoading := isLoading st;
     isCompleting := isCompleting st; isCompleted := isCompleted st;
     kycRequired := kycRequired st; paymentInfo := paymentInfo st;
     data := data st; debounced := debounced st;
     quotesInFlight := quotesInFlight st;
     updatesInFlight := updatesInFlight st;
     sendsInFlight := sendsInFlight st; calls := calls st |}.

Definition setIsLoading (v : bool) (st : State) : State :=
  {| customAmountError := customAmountError st; isLoading := v;
     isCompleting := isCompleting st; isCompleted := isCompleted st;
     kycRequired := kycRequired st; paymentInfo := paymentInfo st;
     data := data st; debounced := debounced st;
     quotesInFlight := quotesInFlight st;
     updatesInFlight := updatesInFlight st;
     sendsInFlight := sendsInFlight st; calls := calls st |}.

Definition setIsCompleting (v : bool) (st : State) : State :=
  {| customAmountError := customAmountError st; isLoading := isLoading st;
     isCompleting := v; isCompleted := isCompleted st;
     kycRequired := kycRequired st; paymentInfo := paymentInfo st;
     data := data st; debounced := debounced st;
     quotesInFlight := quotesInFlight st;
     updatesInFlight := updatesInFlight st;
     sendsInFlight := sendsInFlight st; calls := calls st |}.

Definition setIsCompleted (v : bool) (st : State) : State :=
  {| customAmountError := customAmountError st; isLoading := isLoading st;
     isCompleting := isCompleting st; isCompleted := v;
     kycRequired := kycRequired st; paymentInfo := paymentInfo st;
     data := data st; debounced := debounced st;
     quotesInFlight := quotesInFlight st;
     updatesInFlight := updatesInFlight st;
     sendsInFlight := sendsInFlight st; calls := calls st |}.

Definition setKycRequired (v : bool) (st : State) : State :=
  {| customAmountError := customAmountError st; isLoading := isLoading st;
     isCompleting := isCompleting st; isCompleted := isCompleted st;
     kycRequired := v; paymentInfo := paymentInfo st;
     data := data st; debounced := debounced st;
     quotesInFlight := quotesInFlight st;
     updatesInFlight := updatesInFlight st;
     sendsInFlight := sendsInFlight st; calls := calls st |}.

Definition setPaymentInfo (v : option PaymentInformation) (st : State)
  : State :=
  {| customAmountError := customAmountError st; isLoading := isLoading st;
     isCompleting := isCompleting st; isCompleted := isCompleted st;
     kycRequired := kycRequired st; paymentInfo := v;
     data := data st; debounced := debounced st;
     quotesInFlight := quotesInFlight st;
     updatesInFlight := updatesInFlight st;
     sendsInFlight := sendsInFlight st; calls := calls st |}.

Definition setData (v : FormData) (st : State) : State :=
  {| customAmountError := customAmountError st; isLoading := isLoading st;
     isCompleting := isCompleting st; isCompleted := isCompleted st;
     kycRequired := kycRequired st; paymentInfo := paymentInfo st;
     data := v; debounced := debounced st;
     quotesInFlight := quotesInFlight st;
     updatesInFlight := updatesInFlight st;
     sendsInFlight := sendsInFlight st; calls := calls st |}.

Definition setDebounced (v : FormData) (st : State) : State :=
  {| customAmountError := customAmountError st; isLoading := isLoading st;
     isCompleting := isCompleting st; isCompleted := isCompleted st;
     kycRequired := kycRequired st; paymentInfo := paymentInfo st;
     data := data st; debounced := v;
     quotesInFlight := quotesInFlight st;
     updatesInFlight := updatesInFlight st;
     sendsInFlight := sendsInFlight st; calls := calls st |}.

Definition setQuotesInFlight (v : list QuoteRequest) (st : State) : State :=
  {| customAmountError := customAmountError st; isLoading := isLoading st;
     isCompleting := isCompleting st; isCompleted := isCompleted st;
     kycRequired := kycRequired st; paymentInfo := paymentInfo st;
     data := data st; debounced := debounced st;
     quotesInFlight := v;
     updatesInFlight := updatesInFlight st;
     sendsInFlight := sendsInFlight st; calls := calls st |}.

Definition setUpdatesInFlight (v : list PaymentInformation) (st : State)
  : State :=
  {| customAmountError := customAmountError st; isLoading := isLoading st;
     isCompleting := isCompleting st; isCompleted := isCompleted st;
     kycRequired := kycRequired st; paymentInfo := paymentInfo st;
     data := data st; debounced := debounced st;
     quotesInFlight := quotesInFlight st;
     updatesInFlight := v;
     sendsInFlight := sendsInFlight st; calls := calls st |}.

Definition setSendsInFlight (v : nat) (st : State) : State :=
  {| customAmountError := customAmountError st; isLoading := isLoading st;
     isCompleting := isCompleting st; isCompleted := isCompleted st;
     kycRequired := kycRequired st; paymentInfo := paymentInfo st;
     data := data st; debounced := debounced st;
     quotesInFlight := quotesInFlight st;
     updatesInFlight := updatesInFlight st;
     sendsInFlight := v; calls := calls st |}.

Definition call (c : Call) (st : State) : State :=
  {| customAmountError := customAmountError st; isLoading := isLoading st;
     isCompleting := isCompleting st; isCompleted := isCompleted st;
     kycRequired := kycRequired st; paymentInfo := paymentInfo st;
     data := data st; debounced := debounced st;
     quotesInFlight := quotesInFlight st;
     updatesInFlight := updatesInFlight st;
     sendsInFlight := sendsInFlight st; calls := calls st ++ [c] |}.

(** [setValue(name, v)] of the form. *)
Definition setValue_bankAccount (v : option BankAccount) (d : FormData)
  : FormData :=
  {| bankAccount := v; asset := asset d; currency := currency d;
     amount := amount d |}.

Definition setValue_asset (v : option Asset) (d : FormData) : FormData :=
  {| bankAccount := bankAccount d; asset := v; currency := currency d;
     amount := amount d |}.

Definition setValue_currency (v : option Fiat) (d : FormData) : FormData :=
  {| bankAccount := bankAccount d; asset := asset d; currency := v;
     amount := amount d |}.

Definition setValue_amount (v : option string) (d : FormData) : FormData :=
  {| bankAccount := bankAccount d; asset := asset d; currency := currency d;
     amount := v |}.

(** *** A state monad for the callbacks that both set state and return *)

Definition Update (A : Type) : Type := State -> A * State.

Definition ret {A : Type} (a : A) : Update A := fun st => (a, st).

Definition bind {A B : Type} (m : Update A) (k : A -> Update B) : Update B :=
  fun st => let (a, st') := m st in k a st'.

Definition modify (f : State -> State) : Update unit :=
  fun st => (tt, f st).

Definition exec {A : Type} (m : Update A) (st : State) : State := snd (m st).

End Screen.

Declare Scope update_scope.
Delimit Scope update_scope with update.
Notation "x <- m ;; k" := (bind m (fun x => k))
  (at level 61, m at next level, right associativity) : update_scope.
Notation "m ;; k" := (bind m (fun _ => k))
  (at level 61, right associativity) : update_scope.

Section Component.

Context {N : JsNumber} {H : Hooks}.

Local Open Scope update_scope.

(** ** The component's functions *)

(** [Number(x)] for [x : string | undefined]: [Number(undefined)] is NaN. *)
Definition toNumber_opt (o : option string) : number :=
  match o with
  | Some s => toNumber s
  | None => num_NaN
  end.

(** [Number(value?.estimatedAmount)] *)
Definition estimatedAmount_opt (value : option Sell) : number :=
  match value with
  | Some s => estimatedAmount s
  | None => num_NaN
  end.

(** [validateData]: the snapshot itself when it is complete. *)
Definition validateData (d : FormData) : option FormData :=
  if num_gt (toNumber_opt (amount d)) num_zero
     && present (asset d) && present (bankAccount d) && present (currency d)
  then Some d
  else None.

(** [checkForMinDeposit] *)
Definition checkForMinDeposit (sell : Sell) (amount : number)
    (currency : string) : Update (option Sell) :=
  if num_gt (minVolume sell) amount then
    modify (setCustomAmountError
      (Some ("Entered amount is below minimum deposit of "
             ++ formatAmountCrypto (minVolume sell) ++ " " ++ currency)%string)) ;;
    ret None
  else
    modify (setCustomAmountError None) ;;
    ret (Some sell).

(** [toPaymentInformation]; [d] is the [data] of the enclosing render. *)
Definition toPaymentInformation (d : FormData) (sell : option Sell)
  : option PaymentInformation :=
  match sell with
  | None => None
  | Some sell =>
    Some {| pi_estimatedAmount :=
              ("≈ " ++ num_toString (estimatedAmount sell) ++ " "
               ++ nullish (option_map fiat_name (currency d)) ""
               ++ " (incl. DFX fees)")%string;
            pi_fee := (num_toString (fee sell) ++ " %")%string;
            pi_minFee :=
              if num_gt (minFeeTarget sell) num_zero then
                match currency d with
                | Some c =>
                  Some (num_toString (minFeeTarget sell) ++ toSymbol c)%string
                | None => None
                end
              else None;
            pi_paymentRequest := nullish (paymentRequest sell) "" |}
  end.

(** The test of the [catch] callback. *)
Definition identDataIncomplete (error : ApiError) : bool :=
  match statusCode error, message error with
  | Some c, Some m => Z.eqb c 400 && String.eqb m "Ident data incomplete"
  | _, _ => false
  end.

(** The [then] chain of the quote request followed by [finally]; inside the
    closure [dataValid] is [true]. *)
Definition quoteResolved (q : QuoteRequest) (value : Sell) : Update unit :=
  let dataValid := true in
  value <- checkForMinDeposit value (q_amount q) (q_assetName q) ;;
  modify (setKycRequired
    (dataValid && negb (isAllowedToSell (estimatedAmount_opt value)))) ;;
  modify (setPaymentInfo (toPaymentInformation (q_data q) value)) ;;
  modify (setIsLoading false).

(** [catch] followed by [finally]. *)
Definition quoteRejected (error : ApiError) : Update unit :=
  (if identDataIncomplete error then modify (setKycRequired true)
   else ret tt) ;;
  modify (setIsLoading false).

(** The effect on [enteredAmount]. *)
Definition enteredAmountEffect (st : State) : State :=
  if negb (truthy_opt (amount (data st))) then
    setKycRequired false (setCustomAmountError None st)
  else st.

(** An effect runs again only when its dependency changed. *)
Definition amount_changed (old new : option string) : bool :=
  match old, new with
  | Some a, Some b => negb (String.eqb a b)
  | None, None => false
  | _, _ => true
  end.

(** [setValue('amount', v)] and the effect on [enteredAmount] it triggers. *)
Definition changeAmount (v : string) (st : State) : State :=
  let st' := setData (setValue_amount (Some v) (data st)) st in
  if amount_changed (amount (data st)) (Some v) then enteredAmountEffect st'
  else st'.

(** The effect on the [asset] prop. *)
Definition assetEffect (a : option Asset) (st : State) : State :=
  let st1 :=
    match a with
    | Some _ => setData (setValue_asset a (data st)) st
    | None => st
    end in
  let st2 := changeAmount "" st1 in
  setIsCompleted false (setIsCompleting false st2).

(** Selecting a bank account and the effect on [selectedBankAccount]. *)
Definition bankAccountEffect (st : State) : State :=
  match bankAccount (data st) with
  | Some b =>
    match preferredCurrency b with
    | Some c => setData (setValue_currency (Some c) (data st)) st
    | None => st
    end
  | None => st
  end.

Definition selectBankAccount (b : option BankAccount) (st : State) : State :=
  bankAccountEffect (setData (setValue_bankAccount b (data st)) st).

Definition selectCurrency (c : option Fiat) (st : State) : State :=
  setData (setValue_currency c (data st)) st.

(** The effect on [validatedData].  A validated snapshot has its three object
    fields (see [validateData_fields]), so the last branch, where the
    property access would throw, is never taken. *)
Definition quoteRefreshEffect (st : State) : State :=
  match validateData (debounced st) with
  | None => setPaymentInfo None st
  | Some validatedData =>
    match bankAccount validatedData, currency validatedData,
          asset validatedData with
    | Some b, Some c, Some a =>
      let amount := toNumber_opt (amount validatedData) in
      let st1 := setIsLoading true st in
      let st2 := call (CallReceiveFor (iban b) c amount a) st1 in
      setQuotesInFlight
        (quotesInFlight st2 ++
           [{| q_amount := amount; q_assetName := asset_name a;
               q_data := data st |}]) st2
    | _, _, _ => st
    end
  end.

(** The debounce timer fires: the snapshot becomes the current form values,
    a new object, so [validatedData] changes unless it is undefined before
    and after. *)
Definition debounceElapsed (st : State) : State :=
  let before := validateData (debounced st) in
  let st' := setDebounced (data st) st in
  match before, validateData (debounced st') with
  | None, None => st'
  | _, _ => quoteRefreshEffect st'
  end.

(** The [i]-th pending quote request settles. *)
Definition quoteSettled (i : nat) (r : Sell + ApiError) (st : State)
  : State :=
  match nth_error (quotesInFlight st) i with
  | None => st
  | Some q =>
    let st' := setQuotesInFlight (remove_nth i (quotesInFlight st)) st in
    match r with
    | inl value => exec (quoteResolved q value) st'
    | inr error => exec (quoteRejected error) st'
    end
  end.

(** [updateBankAccount]: reading [selectedBankAccount.id] throws when no bank
    account is selected, the promise is then rejected without a call. *)
Definition updateBankAccount (pi : PaymentInformation) (st : State) : State :=
  match bankAccount (data st) with
  | Some selectedBankAccount =>
    setUpdatesInFlight (updatesInFlight st ++ [pi])
      (call (CallUpdateAccount (bank_id selectedBankAccount)
                               (currency (data st))) st)
  | None => st
  end.

(** [handleNext] up to its [await]; [address] comes from the wallet
    context. *)
Definition handleNext (address : option string) (st : State) : State :=
  match validateData (debounced st), paymentInfo st with
  | Some validatedData, Some pi =>
    if truthy_opt (amount validatedData) && present (asset validatedData)
       && truthy_opt address
    then updateBankAccount pi (setIsCompleting true st)
    else st
  | _, _ => st
  end.

(** [handleNext] after its [await]: the [i]-th pending account update
    settles.  A rejection rejects [handleNext] itself. *)
Definition updateSettled (i : nat) (ok : bool) (st : State) : State :=
  match nth_error (updatesInFlight st) i with
  | None => st
  | Some pi =>
    let st' := setUpdatesInFlight (remove_nth i (updatesInFlight st)) st in
    if ok then
      setSendsInFlight (S (sendsInFlight st'))
        (call (CallSendPayment (pi_paymentRequest pi)) st')
    else st'
  end.

(** [sendPayment(...).then(...).finally(...)] *)
Definition sendSettled (ok : bool) (st : State) : State :=
  match sendsInFlight st with
  | O => st
  | S n =>
    let st' := setSendsInFlight n st in
    let st'' := if ok then setIsCompleted true st' else st' in
    setIsCompleting false st''
  end.

(** ** Rendering *)

Definition phase (st : State) : Phase :=
  if isCompleting st then Completing
  else if isCompleted st then Completed
  else Entering.

Definition entering (st : State) : bool :=
  negb (isCompleting st) && negb (isCompleted st).

(** [paymentInfo && !kycRequired] inside the form: the fee table and the
    button whose [onClick] is [handleNext]. *)
Definition showsPayment (st : State) : bool :=
  entering st && present (paymentInfo st) && negb (kycRequired st).

Definition showsKycHint (st : State) : bool :=
  entering st && kycRequired st && negb (truthy_opt (customAmountError st)).

(** ** The event loop *)

Inductive Event : Type :=
| AssetProp (a : option Asset)
| SelectBankAccount (b : option BankAccount)
| SelectCurrency (c : option Fiat)
| EnterAmount (v : string)
| DebounceElapsed
| QuoteSettled (i : nat) (r : Sell + ApiError)
| Click (address : option string)
| UpdateSettled (i : nat) (ok : bool)
| SendSettled (ok : bool).

Definition step (e : Event) (st : State) : State :=
  match e with
  | AssetProp a => assetEffect a st
  | SelectBankAccount b => selectBankAccount b st
  | SelectCurrency c => selectCurrency c st
  | EnterAmount v => changeAmount v st
  | DebounceElapsed => debounceElapsed st
  | QuoteSettled i r => quoteSettled i r st
  | Click address => if showsPayment st then handleNext address st else st
  | UpdateSettled i ok => updateSettled i ok st
  | SendSettled ok => sendSettled ok st
  end.

Fixpoint run (evs : list Event) (st : State) : State :=
  match evs with
  | [] => st
  | e :: evs' => run evs' (step e st)
  end.

(** The screen after mounting with the given [asset] prop: the form starts
    from [defaultValues = { asset }], the mount effects set the amount to the
    empty string. *)
Definition init (a : option Asset) : State :=
  {| customAmountError := None; isLoading := false; isCompleting := false;
     isCompleted := false; kycRequired := false; paymentInfo := None;
     data := {| bankAccount := None; asset := a; currency := None;
                amount := Some "" |};
     debounced := {| bankAccount := None; asset := a; currency := None;
                     amount := None |};
     quotesInFlight := []; updatesInFlight := []; sendsInFlight := 0;
     calls := [] |}.

Inductive reachable : State -> Prop :=
| reachable_init : forall a, reachable (init a)
| reachable_step : forall e st, reachable st -> reachable (step e st).

(** Runs in which every quote request has settled before the debounced
    snapshot changes again: requests do not overlap. *)
Inductive reachable_in_turn : State -> Prop :=
| in_turn_init : forall a, reachable_in_turn (init a)
| in_turn_step : forall e st,
    reachable_in_turn st ->
    (e = DebounceElapsed -> quotesInFlight st = []) ->
    reachable_in_turn (step e st).

Definition is_AssetProp (e : Event) : bool :=
  match e with
  | AssetProp _ => true
  | _ => false
  end.

(** *** The rest of the form's rendering *)

(** [forceError] of the amount input; its [forceErrorMessage] is
    [customAmountError] and its [loading] is [isLoading]. *)
Definition forceError (st : State) : bool :=
  kycRequired st || present (customAmountError st).

(** The shape of the message [checkForMinDeposit] records. *)
Definition minimumDepositMessage (s : string) : Prop :=
  exists rest : string,
    s = ("Entered amount is below minimum deposit of " ++ rest)%string.

(** The text of the DFX-Fee row. *)
Definition feeRow (p : PaymentInformation) : string :=
  if truthy_opt (pi_minFee p) then
    (pi_fee p ++ " (min. " ++ nullish (pi_minFee p) "" ++ ")")%string
  else pi_fee p.

(** Whether the line with the estimated amount is rendered. *)
Definition showsEstimatedAmount (p : PaymentInformation) : bool :=
  truthy (pi_estimatedAmount p).

(** *** Classes of events and of calls *)

(** The user edits a form field. *)
Definition is_formEdit (e : Event) : bool :=
  match e with
  | SelectBankAccount _ | SelectCurrency _ | EnterAmount _ => true
  | _ => false
  end.

Definition is_UpdateSettled (e : Event) : bool :=
  match e with
  | UpdateSettled _ _ => true
  | _ => false
  end.

Definition is_updateCall (c : Call) : bool :=
  match c with
  | CallUpdateAccount _ _ => true
  | _ => false
  end.

Definition is_sendCall (c : Call) : bool :=
  match c with
  | CallSendPayment _ => true
  | _ => false
  end.

Definition is_quoteCall (c : Call) : bool :=
  match c with
  | CallReceiveFor _ _ _ _ => true
  | _ => false
  end.

Definition count (f : Call -> bool) (l : list Call) : nat :=
  List.length (filter f l).

End Component.

(** ** A number model for the scenarios

    NaN and the integers, printed and read in decimal; [Number("")] is 0. *)

Inductive jsint : Type := JNaN | JInt (z : Z).

Definition jsint_gt (a b : jsint) : bool :=
  match a, b with
  | JInt x, JInt y => Z.gtb x y
  | _, _ => false
  end.

Definition jsint_toString (a : jsint) : string :=
  match a with
  | JNaN => "NaN"
  | JInt z => NilZero.string_of_int (Z.to_int z)
  end.

Definition jsint_ofString (s : string) : jsint :=
  if String.eqb s "" then JInt 0
  else match NilZero.int_of_string s with
       | Some i => JInt (Z.of_int i)
       | None => JNaN
       end.

#[export] Instance IntNumber : JsNumber := {|
  number := jsint;
  num_NaN := JNaN;
  num_zero := JInt 0;
  num_gt := jsint_gt;
  num_toString := jsint_toString;
  toNumber := jsint_ofString;
  num_gt_NaN_l := fun _ => eq_refl
|}.

(** Hooks for the scenarios: selling is allowed up to [limit], amounts are
    printed as they are, a currency's symbol is its name. *)
Definition scenarioHooks (limit : Z) : Hooks (N := IntNumber) := {|
  isAllowedToSell := fun n =>
    match n with
    | JInt z => Z.leb z limit
    | JNaN => false
    end;
  toSymbol := fiat_name;
  formatAmountCrypto := jsint_toString
|}.

Module Scenario.

Definition EUR : Fiat := {| fiat_id := 2; fiat_name := "EUR" |}.

Definition BTC : Asset := {| asset_id := 113; asset_name := "BTC" |}.

Definition account : BankAccount :=
  {| bank_id := 7; iban := "DE89..."; preferredCurrency := Some EUR |}.

Definition quote (minimum : Z) : Sell :=
  {| estimatedAmount := JInt 95; fee := JInt 2; minFeeTarget := JInt 0;
     minVolume := JInt minimum; paymentRequest := Some "pay:xyz" |}.

(** A quote with a minimum fee of 5. *)
Definition quoteWithMinFee : Sell :=
  {| estimatedAmount := JInt 95; fee := JInt 2; minFeeTarget := JInt 5;
     minVolume := JInt 10; paymentRequest := None |}.

Definition identError : ApiError :=
  {| statusCode := Some 400%Z; message := Some "Ident data incomplete" |}.

Definition serverError : ApiError :=
  {| statusCode := Some 500%Z; message := Some "Internal server error" |}.

(** The user picks the account (which brings EUR), types an amount and
    waits for the debounce. *)
Definition fillForm (v : string) : list (Event (N := IntNumber)) :=
  [SelectBankAccount (Some account); EnterAmount v; DebounceElapsed].

(** A user whose sell limit is 1000. *)
Definition hooks : Hooks (N := IntNumber) := scenarioHooks 1000.

(** A user whose sell limit is 50. *)
Definition strictHooks : Hooks (N := IntNumber) := scenarioHooks 50.

Definition mounted : State (N := IntNumber) := init (Some BTC).

(** The form is filled with amount 100 and the quote request is pending. *)
Definition waiting : State := run (H := hooks) (fillForm "100") mounted.

(** The closure of that request. *)
Definition request : QuoteRequest :=
  {| q_amount := JInt 100; q_assetName := "BTC"; q_data := data waiting |}.

(** The quote of the end-to-end scenario has arrived. *)
Definition quoted : State :=
  run (H := hooks) [QuoteSettled 0 (inl (quote 10))] waiting.

(** The quote had a minimum volume of 200 instead. *)
Definition belowMinimum : State :=
  run (H := hooks) [QuoteSettled 0 (inl (quote 200))] waiting.

Definition wallet : option string := Some "bc1q...".

(** The user has clicked, the account update has resolved and the payment
    is being sent. *)
Definition sending : State :=
  run (H := hooks) [Click wallet; UpdateSettled 0 true] quoted.

(** The payment was sent. *)
Definition completed : State :=
  run (H := hooks) [SendSettled true] sending.

(** The payment information of the end-to-end scenario. *)
Definition information : PaymentInformation :=
  {| pi_estimatedAmount := "≈ 95 EUR (incl. DFX fees)"; pi_fee := "2 %";
     pi_minFee := None; pi_paymentRequest := "pay:xyz" |}.

End Scenario.

(** * Properties *)

Section Properties.

Context {N : JsNumber} {H : Hooks}.

Ltac unfold_update := unfold exec, bind, modify, ret in *.

(** Case analysis on the [match] or [if] the goal is stuck on. *)
Ltac case_scrutinee :=
  match goal with
  | |- context [match ?x with _ => _ end] => destruct x eqn:?
  end.

(** ** Validation *)

Lemma validateData_same (d v : FormData) :
  validateData d = Some v -> v = d.
Proof.
  unfold validateData. case_scrutinee; congruence.
Qed.

(** A validated snapshot has its three object fields, and its amount
    converts to a number above zero. *)
Lemma validateData_fields (d v : FormData) :
  validateData d = Some v ->
  present (bankAccount v) = true /\ present (asset v) = true
  /\ present (currency v) = true
  /\ num_gt (toNumber_opt (amount v)) num_zero = true.
Proof.
  intros Hv. pose proof (validateData_same _ _ Hv) as ->.
  unfold validateData in Hv.
  destruct (num_gt _ _), (present (asset d)), (present (bankAccount d)),
    (present (currency d)); simpl in Hv; try discriminate; auto.
Qed.

(** An absent amount is NaN, which is not above zero. *)
Lemma validateData_no_amount (d : FormData) :
  amount d = None -> validateData d = None.
Proof.
  intros Ha. unfold validateData. rewrite Ha. simpl.
  now rewrite num_gt_NaN_l.
Qed.

Lemma validateData_no_bankAccount (d : FormData) :
  validateData (setValue_bankAccount None d) = None.
Proof.
  unfold validateData. simpl.
  now rewrite andb_false_r.
Qed.

Lemma validateData_no_currency (d : FormData) :
  validateData (setValue_currency None d) = None.
Proof.
  unfold validateData. simpl.
  now rewrite andb_false_r.
Qed.

(** The request started by the effect closes over the numeric amount and the
    asset's name of the validated snapshot. *)
Lemma quoteRefreshEffect_request (st : State) (v : FormData) (a : Asset) :
  validateData (debounced st) = Some v ->
  asset v = Some a ->
  quotesInFlight (quoteRefreshEffect st)
  = quotesInFlight st
    ++ [{| q_amount := toNumber_opt (amount v); q_assetName := asset_name a;
           q_data := data st |}].
Proof.
  intros Hv Ha. unfold quoteRefreshEffect. rewrite Hv.
  destruct (validateData_fields _ _ Hv) as (Hb & _ & Hc & _).
  rewrite Ha.
  destruct (bankAccount v); [|discriminate].
  destruct (currency v); [|discriminate].
  reflexivity.
Qed.

Lemma nth_error_snoc {A : Type} (l : list A) (x : A) :
  nth_error (l ++ [x]) (List.length l) = Some x.
Proof.
  induction l; simpl; auto.
Qed.

Lemma remove_nth_snoc {A : Type} (l : list A) (x : A) :
  remove_nth (List.length l) (l ++ [x]) = l.
Proof.
  induction l; simpl; congruence.
Qed.

Lemma reachable_run (evs : list Event) (st : State) :
  reachable st -> reachable (run evs st).
Proof.
  revert st. induction evs as [|e evs IH]; simpl; intros st Hst.
  - exact Hst.
  - apply IH. now constructor.
Qed.

(** ** Submission guard *)

(** C5. When the validated snapshot is absent, or its amount or asset is
    absent, or there is no wallet address, or there is no payment
    information, [handleNext] returns the state it was given: no flag is
    set, nothing becomes pending and no call is made. *)
Theorem handleNext_blocked_is_noop (address : option string) (st : State) :
  validateData (debounced st) = None
  \/ (exists v, validateData (debounced st) = Some v
                /\ (truthy_opt (amount v) = false \/ asset v = None))
  \/ truthy_opt address = false
  \/ paymentInfo st = None ->
  handleNext address st = st.
Proof.
  unfold handleNext.
  intros [Hv | [(v & Hv & [Ha | Ha]) | [Ha | Hp]]].
  - now rewrite Hv.
  - rewrite Hv, Ha. simpl. now destruct (paymentInfo st).
  - rewrite Hv, Ha. cbn [present]. rewrite andb_false_r. simpl.
    now destruct (paymentInfo st).
  - rewrite Ha.
    destruct (validateData (debounced st)), (paymentInfo st);
      rewrite ?andb_false_r; reflexivity.
  - rewrite Hp. now destruct (validateData (debounced st)).
Qed.

(** ** The [asset] prop *)

(** C7 (amended). From every state, a change of the [asset] prop resets the
    amount to the empty string and clears both flags, so the phase is
    Entering; the asset field is overwritten when the new prop is defined
    and kept when it is undefined. *)
Theorem assetEffect_resets (a : option Asset) (st : State) :
  let st' := assetEffect a st in
  asset (data st') = match a with Some _ => a | None => asset (data st) end
  /\ amount (data st') = Some ""
  /\ isCompleting st' = false
  /\ isCompleted st' = false
  /\ phase st' = Entering.
Proof.
  unfold assetEffect, changeAmount, enteredAmountEffect, phase.
  destruct a; simpl;
    destruct (amount_changed _ _); simpl; auto.
Qed.

(** ** Projection of a quote *)

Lemma toPaymentInformation_minFee (d : FormData) (sell : Sell)
    (p : PaymentInformation) :
  toPaymentInformation d (Some sell) = Some p ->
  pi_minFee p <> None ->
  num_gt (minFeeTarget sell) num_zero = true.
Proof.
  simpl. intros [= <-]. simpl.
  destruct (num_gt _ _); congruence.
Qed.

(** ** Quote refresh: invalid snapshot *)

(** C10. When the debounce delivers a snapshot that does not validate, the
    refresh clears the payment information (the snapshot before was valid,
    so the effect runs) and changes nothing else: the amount error and the
    KYC flag keep their values.  Clearing the bank account or the currency
    is such a change.  Among the form edits only an amount that becomes
    empty clears the two. *)
Theorem invalid_snapshot_clears_only_paymentInfo :
  (forall st : State,
     validateData (data st) = None ->
     let st' := debounceElapsed st in
     (validateData (debounced st) <> None -> paymentInfo st' = None)
     /\ customAmountError st' = customAmountError st
     /\ kycRequired st' = kycRequired st
     /\ isLoading st' = isLoading st
     /\ isCompleting st' = isCompleting st
     /\ isCompleted st' = isCompleted st
     /\ data st' = data st
     /\ quotesInFlight st' = quotesInFlight st
     /\ updatesInFlight st' = updatesInFlight st
     /\ sendsInFlight st' = sendsInFlight st
     /\ calls st' = calls st)
  /\ (forall (st : State) (e : Event),
        e = SelectBankAccount None \/ e = SelectCurrency None ->
        validateData (debounced st) <> None ->
        let st' := run [e; DebounceElapsed] st in
        paymentInfo st' = None
        /\ customAmountError st' = customAmountError st
        /\ kycRequired st' = kycRequired st)
  /\ (forall (st : State) (e : Event),
        (exists b, e = SelectBankAccount b) \/ (exists c, e = SelectCurrency c)
        \/ (exists v, e = EnterAmount v /\ truthy v = true) ->
        customAmountError (step e st) = customAmountError st
        /\ kycRequired (step e st) = kycRequired st)
  /\ (forall st : State,
        amount (data st) <> Some "" ->
        customAmountError (step (EnterAmount "") st) = None
        /\ kycRequired (step (EnterAmount "") st) = false).
Proof.
  assert (Hmain : forall st : State,
     validateData (data st) = None ->
     let st' := debounceElapsed st in
     (validateData (debounced st) <> None -> paymentInfo st' = None)
     /\ customAmountError st' = customAmountError st
     /\ kycRequired st' = kycRequired st
     /\ isLoading st' = isLoading st
     /\ isCompleting st' = isCompleting st
     /\ isCompleted st' = isCompleted st
     /\ data st' = data st
     /\ quotesInFlight st' = quotesInFlight st
     /\ updatesInFlight st' = updatesInFlight st
     /\ sendsInFlight st' = sendsInFlight st
     /\ calls st' = calls st).
  { intros st Hd. unfold debounceElapsed, quoteRefreshEffect. simpl.
    rewrite Hd.
    destruct (validateData (debounced st)); simpl; intuition congruence. }
  split; [exact Hmain|]. split; [|split].
  - intros st e He Hv. simpl.
    assert (Hd : validateData (data (step e st)) = None).
    { destruct He as [-> | ->]; simpl.
      - apply validateData_no_bankAccount.
      - apply validateData_no_currency. }
    assert (Hk : debounced (step e st) = debounced st
                 /\ customAmountError (step e st) = customAmountError st
                 /\ kycRequired (step e st) = kycRequired st).
    { destruct He as [-> | ->]; simpl; auto. }
    destruct Hk as (Hk1 & Hk2 & Hk3).
    destruct (Hmain _ Hd) as (Hp & Hc & Hy & _).
    rewrite Hk1 in Hp. rewrite Hc, Hy. auto.
  - intros st e [[b ->] | [[c ->] | (v & -> & Hv)]]; simpl.
    + unfold selectBankAccount, bankAccountEffect. simpl.
      destruct b as [b|]; [destruct (preferredCurrency b)|]; auto.
    + auto.
    + unfold changeAmount, enteredAmountEffect. simpl. rewrite Hv. simpl.
      destruct (amount_changed _ _); auto.
  - intros st Ha. simpl. unfold changeAmount, enteredAmountEffect.
    assert (Hc : amount_changed (amount (data st)) (Some "") = true).
    { destruct (amount (data st)) as [s|]; simpl; auto.
      destruct (String.eqb_spec s ""); [congruence | reflexivity]. }
    rewrite Hc. simpl. auto.
Qed.

(** ** Quote refresh: the request settles *)

(** C2. When a quote arrives whose minimum volume is above the requested
    amount, the payment information becomes absent and the amount error is
    the minimum-deposit message with the formatted minimum and the asset's
    name; for every other quote the amount error is cleared. *)
Theorem minimum_deposit_policy (st : State) (i : nat) (q : QuoteRequest)
    (sell : Sell) :
  nth_error (quotesInFlight st) i = Some q ->
  let st' := quoteSettled i (inl sell) st in
  if num_gt (minVolume sell) (q_amount q)
  then paymentInfo st' = None
       /\ customAmountError st'
          = Some ("Entered amount is below minimum deposit of "
                  ++ formatAmountCrypto (minVolume sell) ++ " "
                  ++ q_assetName q)%string
  else customAmountError st' = None.
Proof.
  intros Hq. unfold quoteSettled, quoteResolved, checkForMinDeposit.
  rewrite Hq. unfold_update.
  destruct (num_gt (minVolume sell) (q_amount q)); simpl; auto.
Qed.

(** C3 (amended). Every quote that arrives re-evaluates the KYC flag: it
    becomes the negation of the eligibility check, applied to the quote's
    estimated amount when the quote passes the minimum-deposit check and to
    NaN when the quote is discarded. *)
Theorem kyc_evaluated_on_every_quote (st : State) (i : nat)
    (q : QuoteRequest) (sell : Sell) :
  nth_error (quotesInFlight st) i = Some q ->
  kycRequired (quoteSettled i (inl sell) st)
  = negb (isAllowedToSell
            (if num_gt (minVolume sell) (q_amount q) then num_NaN
             else estimatedAmount sell)).
Proof.
  intros Hq. unfold quoteSettled, quoteResolved, checkForMinDeposit.
  rewrite Hq. unfold_update.
  destruct (num_gt (minVolume sell) (q_amount q)); reflexivity.
Qed.

Lemma identDataIncomplete_spec (error : ApiError) :
  identDataIncomplete error = true
  <-> statusCode error = Some 400%Z
      /\ message error = Some "Ident data incomplete".
Proof.
  unfold identDataIncomplete.
  destruct (statusCode error) as [c|], (message error) as [m|];
    try (split; [discriminate | intros [? ?]; discriminate]).
  rewrite andb_true_iff, Z.eqb_eq, String.eqb_eq.
  split; [intros [-> ->]; auto | intros [[= ->] [= ->]]; auto].
Qed.

(** C4 (amended). When the quote request fails with status 400 and message
    'Ident data incomplete', the KYC flag is set; for every other failure it
    is left alone.  In both cases the loading flag is cleared and nothing
    else changes: the payment information and the amount error keep the
    values they had before the request. *)
Theorem quote_failure_effects (st : State) (i : nat) (q : QuoteRequest)
    (error : ApiError) :
  nth_error (quotesInFlight st) i = Some q ->
  let st' := quoteSettled i (inr error) st in
  (statusCode error = Some 400%Z
   /\ message error = Some "Ident data incomplete" ->
   kycRequired st' = true)
  /\ (~ (statusCode error = Some 400%Z
         /\ message error = Some "Ident data incomplete") ->
      kycRequired st' = kycRequired st)
  /\ isLoading st' = false
  /\ paymentInfo st' = paymentInfo st
  /\ customAmountError st' = customAmountError st
  /\ isCompleting st' = isCompleting st
  /\ isCompleted st' = isCompleted st
  /\ data st' = data st
  /\ debounced st' = debounced st
  /\ updatesInFlight st' = updatesInFlight st
  /\ sendsInFlight st' = sendsInFlight st
  /\ calls st' = calls st.
Proof.
  intros Hq. unfold quoteSettled, quoteRejected. rewrite Hq. unfold_update.
  pose proof (identDataIncomplete_spec error) as Hspec.
  destruct (identDataIncomplete error); simpl.
  - repeat split; auto. intros Hn. exfalso. apply Hn. now apply Hspec.
  - repeat split; auto. intros Hi. apply Hspec in Hi. discriminate.
Qed.

(** ** Submission *)

Lemma handleNext_proceeds (address : option string) (st : State)
    (v : FormData) (pi : PaymentInformation) (b : BankAccount) :
  validateData (debounced st) = Some v ->
  truthy_opt (amount v) = true ->
  truthy_opt address = true ->
  paymentInfo st = Some pi ->
  bankAccount (data st) = Some b ->
  handleNext address st
  = setUpdatesInFlight (updatesInFlight st ++ [pi])
      (call (CallUpdateAccount (bank_id b) (currency (data st)))
         (setIsCompleting true st)).
Proof.
  intros Hv Ha Hw Hp Hb. unfold handleNext, updateBankAccount.
  destruct (validateData_fields _ _ Hv) as (_ & Has & _).
  rewrite Hv, Hp, Ha, Has, Hw. simpl. now rewrite Hb.
Qed.

(** C6. Whenever the payment-send promise settles, the Completing flag is
    cleared; when it resolves the phase becomes Completed.  For a submission
    started from the displayed button that reaches the send: a resolved send
    gives phase Completed, a rejected send leaves Completing and Completed
    both false. *)
Theorem send_settlement :
  (forall (ok : bool) (st : State),
     sendsInFlight st <> 0 -> isCompleting (sendSettled ok st) = false)
  /\ (forall st : State,
        sendsInFlight st <> 0 -> phase (sendSettled true st) = Completed)
  /\ (forall (st : State) (address : option string) (v : FormData)
             (pi : PaymentInformation) (b : BankAccount),
        showsPayment st = true ->
        validateData (debounced st) = Some v ->
        truthy_opt (amount v) = true ->
        truthy_opt address = true ->
        paymentInfo st = Some pi ->
        bankAccount (data st) = Some b ->
        let st2 :=
          run [Click address;
               UpdateSettled (List.length (updatesInFlight st)) true] st in
        calls st2
        = calls st ++ [CallUpdateAccount (bank_id b) (currency (data st));
                       CallSendPayment (pi_paymentRequest pi)]
        /\ isCompleting st2 = true
        /\ phase (step (SendSettled true) st2) = Completed
        /\ isCompleting (step (SendSettled false) st2) = false
        /\ isCompleted (step (SendSettled false) st2) = false).
Proof.
  split; [|split].
  - intros ok st Hs. unfold sendSettled.
    destruct (sendsInFlight st); [congruence|]. reflexivity.
  - intros st Hs. unfold sendSettled, phase.
    destruct (sendsInFlight st); [congruence|]. reflexivity.
  - intros st address v pi b Hshow Hv Ha Hw Hp Hb. simpl.
    rewrite Hshow.
    rewrite (handleNext_proceeds _ _ _ _ _ Hv Ha Hw Hp Hb).
    unfold updateSettled. simpl.
    rewrite nth_error_snoc, remove_nth_snoc. simpl.
    unfold showsPayment, entering in Hshow.
    destruct (isCompleting st), (isCompleted st); try discriminate.
    rewrite <- app_assoc. simpl. unfold phase. simpl. auto.
Qed.

(** While a submission is stuck in Completing with nothing pending, no event
    other than a change of the [asset] prop touches the submission state. *)
Lemma stuck_step (e : Event) (st : State) :
  is_AssetProp e = false ->
  isCompleting st = true ->
  updatesInFlight st = [] ->
  sendsInFlight st = 0 ->
  isCompleting (step e st) = true
  /\ updatesInFlight (step e st) = []
  /\ sendsInFlight (step e st) = 0
  /\ isCompleted (step e st) = isCompleted st
  /\ (forall r, In (CallSendPayment r) (calls (step e st)) ->
                In (CallSendPayment r) (calls st)).
Proof.
  intros He Hc Hu Hs.
  destruct e; try discriminate; simpl.
  - unfold selectBankAccount, bankAccountEffect. simpl.
    destruct b as [b|]; [destruct (preferredCurrency b)|]; simpl; auto.
  - auto.
  - unfold changeAmount, enteredAmountEffect. simpl.
    destruct (amount_changed _ _); [destruct (negb _)|]; simpl; auto.
  - unfold debounceElapsed, quoteRefreshEffect. simpl.
    destruct (validateData (debounced st)), (validateData (data st)) as [d|];
      simpl; auto;
      destruct (bankAccount d), (currency d), (asset d); simpl; auto.
    all: repeat split; auto.
    all: intros r Hr; apply in_app_or in Hr; destruct Hr as [Hr | [Hr | []]];
      [exact Hr | discriminate].
  - unfold quoteSettled, quoteResolved, quoteRejected, checkForMinDeposit.
    unfold_update.
    destruct (nth_error _ _); [|auto].
    destruct r as [sell | error].
    + destruct (num_gt _ _); simpl; auto.
    + destruct (identDataIncomplete error); simpl; auto.
  - unfold showsPayment, entering. rewrite Hc. simpl. auto.
  - unfold updateSettled. rewrite Hu.
    destruct i; simpl; auto.
  - unfold sendSettled. rewrite Hs. auto.
Qed.

Lemma stuck_run (evs : list Event) (st : State) :
  forallb (fun e => negb (is_AssetProp e)) evs = true ->
  isCompleting st = true ->
  updatesInFlight st = [] ->
  sendsInFlight st = 0 ->
  isCompleting (run evs st) = true
  /\ isCompleted (run evs st) = isCompleted st
  /\ (forall r, In (CallSendPayment r) (calls (run evs st)) ->
                In (CallSendPayment r) (calls st)).
Proof.
  revert st. induction evs as [|e evs IH]; simpl; intros st Hevs Hc Hu Hs.
  - auto.
  - apply andb_true_iff in Hevs. destruct Hevs as [He Hevs].
    apply negb_true_iff in He.
    destruct (stuck_step e st He Hc Hu Hs) as (Hc' & Hu' & Hs' & Hd' & Hcalls).
    destruct (IH _ Hevs Hc' Hu' Hs') as (IH1 & IH2 & IH3).
    repeat split; auto; congruence.
Qed.

(** C9. With every precondition of the submission met, when the account
    update is rejected no payment is sent, the Completed flag keeps its
    value and the Completing flag stays set.  If no other submission is
    pending, this remains so under every sequence of events that holds no
    change of the [asset] prop. *)
Theorem update_rejection_strands_completing (st : State)
    (address : option string) (v : FormData) (pi : PaymentInformation)
    (b : BankAccount) :
  validateData (debounced st) = Some v ->
  truthy_opt (amount v) = true ->
  truthy_opt address = true ->
  paymentInfo st = Some pi ->
  bankAccount (data st) = Some b ->
  let st2 :=
    updateSettled (List.length (updatesInFlight st)) false
      (handleNext address st) in
  calls st2 = calls st ++ [CallUpdateAccount (bank_id b) (currency (data st))]
  /\ sendsInFlight st2 = sendsInFlight st
  /\ updatesInFlight st2 = updatesInFlight st
  /\ isCompleted st2 = isCompleted st
  /\ isCompleting st2 = true
  /\ (updatesInFlight st = [] ->
      sendsInFlight st = 0 ->
      forall evs : list Event,
        forallb (fun e => negb (is_AssetProp e)) evs = true ->
        isCompleting (run evs st2) = true
        /\ isCompleted (run evs st2) = isCompleted st
        /\ (forall r, In (CallSendPayment r) (calls (run evs st2)) ->
                      In (CallSendPayment r) (calls st))).
Proof.
  intros Hv Ha Hw Hp Hb.
  rewrite (handleNext_proceeds _ _ _ _ _ Hv Ha Hw Hp Hb).
  unfold updateSettled. simpl.
  rewrite nth_error_snoc, remove_nth_snoc. simpl.
  do 5 (split; [reflexivity|]).
  intros Hu Hs evs Hevs.
  match goal with
  | |- context [run evs ?s] =>
    destruct (stuck_run evs s Hevs) as (Hr1 & Hr2 & Hr3); simpl; auto
  end.
  do 2 (split; [assumption|]).
  intros r Hr. apply Hr3 in Hr. simpl in Hr.
  apply in_app_or in Hr. destruct Hr as [Hr | [Hr | []]];
    [exact Hr | discriminate].
Qed.

(** ** Invariants of the payment information *)

(** The amount error and the payment information are never both set: the
    [then] chain sets one and clears the other, every other writer only
    clears. *)
Lemma error_excludes_paymentInfo_step (e : Event) (st : State) :
  paymentInfo st = None \/ customAmountError st = None ->
  paymentInfo (step e st) = None \/ customAmountError (step e st) = None.
Proof.
  intros Hinv. destruct e; simpl.
  - unfold assetEffect, changeAmount, enteredAmountEffect.
    destruct a; simpl; destruct (amount_changed _ _); simpl; auto.
  - unfold selectBankAccount, bankAccountEffect. simpl.
    destruct b as [b|]; [destruct (preferredCurrency b)|]; simpl; auto.
  - auto.
  - unfold changeAmount, enteredAmountEffect. simpl.
    destruct (amount_changed _ _); [destruct (negb _)|]; simpl; auto.
  - unfold debounceElapsed, quoteRefreshEffect. simpl.
    destruct (validateData (debounced st)), (validateData (data st)) as [d|];
      simpl; auto;
      destruct (bankAccount d), (currency d), (asset d); simpl; auto.
  - unfold quoteSettled, quoteResolved, quoteRejected, checkForMinDeposit.
    unfold_update.
    destruct (nth_error _ _); [|auto].
    destruct r as [sell | error].
    + destruct (num_gt _ _); simpl; auto.
    + destruct (identDataIncomplete error); simpl; auto.
  - destruct (showsPayment st); [|auto].
    unfold handleNext, updateBankAccount.
    destruct (validateData (debounced st)) as [v|]; [|auto].
    destruct (paymentInfo st) eqn:Hp; [|auto].
    destruct (_ && _); [|rewrite Hp; auto]. simpl.
    destruct (bankAccount (data st)); simpl; rewrite ?Hp; auto.
  - unfold updateSettled.
    destruct (nth_error _ _); [|auto]. destruct ok; simpl; auto.
  - unfold sendSettled.
    destruct (sendsInFlight st); [auto|]. destruct ok; simpl; auto.
Qed.

Lemma error_excludes_paymentInfo (st : State) :
  reachable st ->
  paymentInfo st = None \/ customAmountError st = None.
Proof.
  induction 1 as [a | e st Hst IH].
  - now left.
  - now apply error_excludes_paymentInfo_step.
Qed.

(** Steps that are neither the debounce nor a settling quote leave the
    snapshot, the pending quotes and the payment information alone. *)
Lemma form_step_frame (e : Event) (st : State) :
  e <> DebounceElapsed ->
  (forall i r, e <> QuoteSettled i r) ->
  debounced (step e st) = debounced st
  /\ quotesInFlight (step e st) = quotesInFlight st
  /\ paymentInfo (step e st) = paymentInfo st.
Proof.
  intros Hd Hq.
  destruct e; simpl; try congruence; try (exfalso; now apply (Hq i r)).
  - unfold assetEffect, changeAmount, enteredAmountEffect.
    destruct a; simpl; destruct (amount_changed _ _); simpl; auto.
  - unfold selectBankAccount, bankAccountEffect. simpl.
    destruct b as [b|]; [destruct (preferredCurrency b)|]; simpl; auto.
  - auto.
  - unfold changeAmount, enteredAmountEffect. simpl.
    destruct (amount_changed _ _); [destruct (negb _)|]; simpl; auto.
  - destruct (showsPayment st); [|auto].
    unfold handleNext, updateBankAccount.
    destruct (validateData (debounced st)) as [v|]; [|auto].
    destruct (paymentInfo st) eqn:Hp; [|auto].
    destruct (_ && _); [|rewrite Hp; auto]. simpl.
    destruct (bankAccount (data st)); simpl; rewrite ?Hp; auto.
  - unfold updateSettled.
    destruct (nth_error _ _); [|auto]. destruct ok; simpl; auto.
  - unfold sendSettled.
    destruct (sendsInFlight st); [auto|]. destruct ok; simpl; auto.
Qed.

(** When requests do not overlap, a pending request and a present payment
    information both belong to the current, valid snapshot. *)
Lemma in_turn_validated (st : State) :
  reachable_in_turn st ->
  (quotesInFlight st <> [] -> validateData (debounced st) <> None)
  /\ (paymentInfo st <> None -> validateData (debounced st) <> None).
Proof.
  induction 1 as [a | e st Hst [IHq IHp] Hturn].
  - simpl. split; intros Hx; now contradiction Hx.
  - destruct e.
    1-4, 7-9:
      match goal with
      | |- context [step ?e ?s] =>
        destruct (form_step_frame e s) as (-> & -> & ->);
          [discriminate | discriminate | auto]
      end.
    + (* the debounce fires with no request pending *)
      specialize (Hturn eq_refl). simpl.
      unfold debounceElapsed, quoteRefreshEffect. simpl.
      destruct (validateData (data st)) as [d|] eqn:Hd.
      * assert (Hgoal : forall s : State,
                  debounced s = data st ->
                  (quotesInFlight s <> [] -> validateData (debounced s) <> None)
                  /\ (paymentInfo s <> None ->
                      validateData (debounced s) <> None)).
        { intros s ->. rewrite Hd. split; discriminate. }
        destruct (validateData (debounced st));
          destruct (bankAccount d), (currency d), (asset d);
          apply Hgoal; reflexivity.
      * destruct (validateData (debounced st)) eqn:Hold; simpl.
        -- rewrite Hturn. split; intros Hx; now contradiction Hx.
        -- rewrite Hturn. split; [intros Hx; now contradiction Hx|].
           intros Hp. exfalso. now apply (IHp Hp).
    + (* a quote settles *)
      simpl. unfold quoteSettled.
      destruct (nth_error (quotesInFlight st) i) as [q|] eqn:Hq; [|auto].
      assert (Hne : quotesInFlight st <> []).
      { intros Hnil. rewrite Hnil in Hq. destruct i; discriminate. }
      specialize (IHq Hne).
      assert (Hdeb : forall s,
                debounced s = debounced st ->
                (quotesInFlight s <> [] -> validateData (debounced s) <> None)
                /\ (paymentInfo s <> None ->
                    validateData (debounced s) <> None)).
      { intros s ->. auto. }
      apply Hdeb.
      unfold quoteResolved, quoteRejected, checkForMinDeposit. unfold_update.
      destruct r as [sell | error].
      * destruct (num_gt _ _); reflexivity.
      * destruct (identDataIncomplete error); reflexivity.
Qed.

(** C1 (amended). In every reachable state, payment information is present
    only when no minimum-deposit error is recorded; when quote requests do
    not overlap, it is present only when the debounced snapshot validates.
    The KYC flag may be set while payment information is present: it is the
    display of the payment details that requires the flag to be clear. *)
Theorem paymentInfo_presence :
  (forall st : State,
     reachable st -> paymentInfo st <> None -> customAmountError st = None)
  /\ (forall st : State,
        reachable_in_turn st -> paymentInfo st <> None ->
        validateData (debounced st) <> None)
  /\ (forall st : State,
        showsPayment st = true ->
        paymentInfo st <> None /\ kycRequired st = false).
Proof.
  split; [|split].
  - intros st Hst Hp.
    destruct (error_excludes_paymentInfo st Hst); [contradiction | assumption].
  - intros st Hst. apply (in_turn_validated st Hst).
  - intros st. unfold showsPayment.
    destruct (entering st), (paymentInfo st), (kycRequired st);
      simpl; try discriminate.
    split; [discriminate | reflexivity].
Qed.

End Properties.

(** * Scenarios *)

Section Scenarios.

Import Scenario.

(** C8. With a currency named EUR and the quote
    {estimatedAmount: 95, fee: 2, minFeeTarget: 0, paymentRequest: "pay:xyz"}
    the projection is exactly the payment information of the end-to-end
    scenario, with no minimum fee; and for every quote, a minimum fee is
    produced only when [minFeeTarget] is above zero. *)
Theorem toPaymentInformation_scenario :
  (forall (H : Hooks (N := IntNumber)) (d : FormData) (c : Fiat) (m : jsint),
     currency d = Some c ->
     fiat_name c = "EUR" ->
     toPaymentInformation d
       (Some {| estimatedAmount := JInt 95; fee := JInt 2;
                minFeeTarget := JInt 0; minVolume := m;
                paymentRequest := Some "pay:xyz" |})
     = Some {| pi_estimatedAmount := "≈ 95 EUR (incl. DFX fees)";
               pi_fee := "2 %";
               pi_minFee := None;
               pi_paymentRequest := "pay:xyz" |})
  /\ (forall (N : JsNumber) (H : Hooks) (d : FormData) (sell : Sell)
             (p : PaymentInformation),
        toPaymentInformation d (Some sell) = Some p ->
        pi_minFee p <> None ->
        num_gt (minFeeTarget sell) num_zero = true).
Proof.
  split.
  - intros H d c m Hc Hn. unfold toPaymentInformation.
    rewrite Hc. simpl. rewrite Hn. reflexivity.
  - intros N H. apply toPaymentInformation_minFee.
Qed.

Lemma toPaymentInformation_scenario_witness :
  toPaymentInformation (H := hooks) (data quoted) (Some (quote 10))
  = Some {| pi_estimatedAmount := "≈ 95 EUR (incl. DFX fees)";
            pi_fee := "2 %";
            pi_minFee := None;
            pi_paymentRequest := "pay:xyz" |}
  /\ num_gt (JInt 5) num_zero = true.
Proof.
  split.
  - apply (proj1 toPaymentInformation_scenario hooks (data quoted) EUR
             (JInt 10)); reflexivity.
  - apply (proj2 toPaymentInformation_scenario IntNumber hooks (data quoted)
             quoteWithMinFee
             {| pi_estimatedAmount := "≈ 95 EUR (incl. DFX fees)";
                pi_fee := "2 %"; pi_minFee := Some "5EUR";
                pi_paymentRequest := "" |}).
    + reflexivity.
    + discriminate.
Defined.

(** The end-to-end scenario of the specification, run through the event
    loop. *)
Example end_to_end_scenario :
  paymentInfo quoted
  = Some {| pi_estimatedAmount := "≈ 95 EUR (incl. DFX fees)";
            pi_fee := "2 %";
            pi_minFee := None;
            pi_paymentRequest := "pay:xyz" |}
  /\ customAmountError quoted = None
  /\ kycRequired quoted = false
  /\ isLoading quoted = false.
Proof.
  vm_compute. auto.
Qed.

(** The same with a minimum volume of 200. *)
Example below_minimum_scenario :
  let st := step (H := hooks) (QuoteSettled 0 (inl (quote 200))) waiting in
  customAmountError st
  = Some "Entered amount is below minimum deposit of 200 BTC"
  /\ paymentInfo st = None.
Proof.
  vm_compute. auto.
Qed.

(** *** C1 *)

(** A quote above the user's sell limit sets the KYC flag and stores the
    payment information all the same; and a quote that arrives after the
    amount was emptied stores payment information although the snapshot no
    longer validates. *)
Lemma paymentInfo_present_despite_kyc_or_invalid_snapshot :
  (let st := run (H := strictHooks) [QuoteSettled 0 (inl (quote 10))]
               (run (H := strictHooks) (fillForm "100") mounted) in
   reachable (H := strictHooks) st
   /\ paymentInfo st <> None /\ kycRequired st = true)
  /\ (let st := run (H := hooks)
                  [EnterAmount ""; DebounceElapsed;
                   QuoteSettled 0 (inl (quote 10))] waiting in
      reachable (H := hooks) st
      /\ paymentInfo st <> None /\ validateData (debounced st) = None).
Proof.
  split; cbv zeta.
  - split; [do 2 apply reachable_run; apply reachable_init|].
    vm_compute. split; [discriminate | reflexivity].
  - split; [do 2 apply reachable_run; apply reachable_init|].
    vm_compute. split; [discriminate | reflexivity].
Qed.

Lemma reachable_in_turn_quoted : reachable_in_turn (H := hooks) quoted.
Proof.
  unfold quoted, waiting, fillForm.
  apply (in_turn_step (H := hooks) (QuoteSettled 0 (inl (quote 10))));
    [|discriminate].
  apply (in_turn_step (H := hooks) DebounceElapsed); [|reflexivity].
  apply (in_turn_step (H := hooks) (EnterAmount "100")); [|discriminate].
  apply (in_turn_step (H := hooks) (SelectBankAccount (Some account)));
    [|discriminate].
  apply in_turn_init.
Qed.

Lemma paymentInfo_presence_witness :
  customAmountError quoted = None
  /\ validateData (debounced quoted) <> None
  /\ (paymentInfo quoted <> None /\ kycRequired quoted = false).
Proof.
  assert (Hp : paymentInfo quoted <> None) by (vm_compute; discriminate).
  split; [|split].
  - apply (proj1 (paymentInfo_presence (H := hooks)) quoted); [|exact Hp].
    apply reachable_run, reachable_run, reachable_init.
  - apply (proj1 (proj2 (paymentInfo_presence (H := hooks))) quoted);
      [|exact Hp].
    exact reachable_in_turn_quoted.
  - apply (proj2 (proj2 (paymentInfo_presence (H := hooks))) quoted).
    vm_compute. reflexivity.
Defined.

(** *** C2 *)

Lemma minimum_deposit_policy_witness :
  (paymentInfo (quoteSettled (H := hooks) 0 (inl (quote 200)) waiting) = None
   /\ customAmountError (quoteSettled (H := hooks) 0 (inl (quote 200)) waiting)
      = Some "Entered amount is below minimum deposit of 200 BTC")
  /\ customAmountError (quoteSettled (H := hooks) 0 (inl (quote 10)) waiting)
     = None.
Proof.
  split.
  - apply (minimum_deposit_policy (H := hooks) waiting 0
             request (quote 200)).
    reflexivity.
  - apply (minimum_deposit_policy (H := hooks) waiting 0
             request (quote 10)).
    reflexivity.
Defined.

(** *** C3 *)

(** The KYC flag is clear while the request is pending; the quote is
    discarded for its minimum volume of 200, and the flag is set all the
    same, because NaN is not within the sell limit. *)
Lemma kyc_reevaluated_for_discarded_quote :
  let st' := step (H := hooks) (QuoteSettled 0 (inl (quote 200))) waiting in
  kycRequired waiting = false
  /\ jsint_gt (minVolume (quote 200)) (JInt 100) = true
  /\ paymentInfo st' = None
  /\ kycRequired st' = true.
Proof.
  vm_compute. auto.
Qed.

Lemma kyc_evaluated_on_every_quote_witness :
  kycRequired (quoteSettled (H := hooks) 0 (inl (quote 200)) waiting) = true
  /\ kycRequired (quoteSettled (H := hooks) 0 (inl (quote 10)) waiting)
     = false.
Proof.
  split.
  - apply (kyc_evaluated_on_every_quote (H := hooks) waiting 0
             request (quote 200)).
    reflexivity.
  - apply (kyc_evaluated_on_every_quote (H := hooks) waiting 0
             request (quote 10)).
    reflexivity.
Defined.

(** *** C4 *)

(** After a first quote the amount is changed and the second request fails
    with 400 / 'Ident data incomplete': the payment information of the first
    quote is still there.  And when the first quote was below the minimum,
    its error message is still there after the failure. *)
Lemma ident_failure_keeps_paymentInfo_and_error :
  (let st := run (H := hooks)
               [EnterAmount "200"; DebounceElapsed;
                QuoteSettled 0 (inr identError)] quoted in
   kycRequired st = true /\ paymentInfo st <> None)
  /\ (let st := run (H := hooks)
                  [QuoteSettled 0 (inl (quote 200)); EnterAmount "150";
                   DebounceElapsed; QuoteSettled 0 (inr identError)]
                  waiting in
      kycRequired st = true
      /\ customAmountError st
         = Some "Entered amount is below minimum deposit of 200 BTC").
Proof.
  split; vm_compute; split; try reflexivity; discriminate.
Qed.

Lemma quote_failure_effects_witness :
  let st' := quoteSettled (H := hooks) 0 (inr identError) waiting in
  kycRequired st' = true
  /\ isLoading st' = false
  /\ paymentInfo st' = None
  /\ customAmountError st' = None
  /\ kycRequired (quoteSettled (H := hooks) 0 (inr serverError) waiting)
     = false.
Proof.
  destruct (quote_failure_effects (H := hooks) waiting 0
              request identError eq_refl)
    as (Hk & _ & Hl & Hp & He & _).
  destruct (quote_failure_effects (H := hooks) waiting 0
              request serverError eq_refl)
    as (_ & Hk' & _).
  cbv zeta. split; [|split; [|split; [|split]]].
  - apply Hk. split; reflexivity.
  - exact Hl.
  - exact Hp.
  - exact He.
  - rewrite Hk'; [reflexivity|]. intros [Hs _]. discriminate.
Defined.

(** *** C5 *)

Lemma handleNext_blocked_is_noop_witness :
  handleNext None quoted = quoted
  /\ handleNext (Some "bc1q...") waiting = waiting
  /\ handleNext (Some "bc1q...") mounted = mounted.
Proof.
  split; [|split].
  - apply (handleNext_blocked_is_noop None quoted).
    right. right. left. reflexivity.
  - apply (handleNext_blocked_is_noop (Some "bc1q...") waiting).
    right. right. right. reflexivity.
  - apply (handleNext_blocked_is_noop (Some "bc1q...") mounted).
    left. reflexivity.
Defined.

(** *** C7 *)

(** The form holds BTC and the [asset] prop becomes undefined: the asset
    field is not overwritten, it still holds BTC. *)
Lemma undefined_asset_prop_keeps_field :
  let st' := step (H := hooks) (AssetProp None) quoted in
  asset (data quoted) = Some BTC
  /\ asset (data st') = Some BTC
  /\ asset (data st') <> None.
Proof.
  vm_compute. repeat split. discriminate.
Qed.

(** *** C6 *)

Lemma send_settlement_witness :
  let st2 := run (H := hooks)
               [Click (Some "bc1q..."); UpdateSettled 0 true] quoted in
  calls st2
  = calls quoted ++ [CallUpdateAccount 7 (Some EUR);
                     CallSendPayment "pay:xyz"]
  /\ isCompleting st2 = true
  /\ phase (step (H := hooks) (SendSettled true) st2) = Completed
  /\ isCompleting (step (H := hooks) (SendSettled false) st2) = false
  /\ isCompleted (step (H := hooks) (SendSettled false) st2) = false.
Proof.
  apply (proj2 (proj2 (send_settlement (H := hooks))) quoted
           (Some "bc1q...") (debounced quoted)
           {| pi_estimatedAmount := "≈ 95 EUR (incl. DFX fees)";
              pi_fee := "2 %"; pi_minFee := None;
              pi_paymentRequest := "pay:xyz" |}
           account); reflexivity.
Defined.

(** *** C9 *)

Lemma update_rejection_strands_completing_witness :
  let st2 := updateSettled 0 false
               (handleNext (Some "bc1q...") quoted) in
  calls st2 = calls quoted ++ [CallUpdateAccount 7 (Some EUR)]
  /\ isCompleted st2 = false
  /\ isCompleting st2 = true
  /\ isCompleting
       (run (H := hooks)
          [EnterAmount "50"; DebounceElapsed; Click (Some "bc1q...");
           SendSettled true] st2) = true.
Proof.
  destruct (update_rejection_strands_completing (H := hooks) quoted
              (Some "bc1q...") (debounced quoted)
              {| pi_estimatedAmount := "≈ 95 EUR (incl. DFX fees)";
                 pi_fee := "2 %"; pi_minFee := None;
                 pi_paymentRequest := "pay:xyz" |}
              account eq_refl eq_refl eq_refl eq_refl eq_refl)
    as (Hcalls & _ & _ & Hdone & Hing & Hstuck).
  cbv zeta. split; [|split; [|split]].
  - exact Hcalls.
  - exact Hdone.
  - exact Hing.
  - apply (Hstuck eq_refl eq_refl
             [EnterAmount "50"; DebounceElapsed; Click (Some "bc1q...");
              SendSettled true] eq_refl).
Defined.

(** *** C10 *)

Lemma invalid_snapshot_clears_only_paymentInfo_witness :
  let st' := run (H := hooks) [SelectCurrency None; DebounceElapsed] quoted in
  paymentInfo st' = None
  /\ customAmountError st' = customAmountError quoted
  /\ kycRequired st' = kycRequired quoted.
Proof.
  apply (proj1 (proj2 (invalid_snapshot_clears_only_paymentInfo (H := hooks)))
           quoted (SelectCurrency None)).
  - right. reflexivity.
  - vm_compute. discriminate.
Defined.

End Scenarios.

(** * Further properties of the component *)

Section QuoteRefresh.

Context {N : JsNumber} {H : Hooks}.

(** ** Issuing the quote request *)

(** X1. A snapshot that lacks the bank account, the asset, the currency or
    the amount, or whose amount is not above zero, never starts a quote
    request: the debounce makes no call, leaves nothing pending and does not
    touch the loading flag. *)
Theorem incomplete_snapshot_issues_no_request (st : State) :
  bankAccount (data st) = None \/ asset (data st) = None
  \/ currency (data st) = None \/ amount (data st) = None
  \/ num_gt (toNumber_opt (amount (data st))) num_zero = false ->
  let st' := debounceElapsed st in
  calls st' = calls st
  /\ quotesInFlight st' = quotesInFlight st
  /\ isLoading st' = isLoading st.
Proof.
  intros Hmiss.
  assert (Hd : validateData (data st) = None).
  { destruct Hmiss as [Hx | [Hx | [Hx | [Hx | Hx]]]].
    - unfold validateData. rewrite Hx. simpl.
      now rewrite andb_false_r.
    - unfold validateData. rewrite Hx. simpl.
      now rewrite andb_false_r.
    - unfold validateData. rewrite Hx. simpl.
      now rewrite andb_false_r.
    - now apply validateData_no_amount.
    - unfold validateData. now rewrite Hx. }
  unfold debounceElapsed, quoteRefreshEffect. simpl. rewrite Hd.
  destruct (validateData (debounced st)); simpl; auto.
Qed.

(** X2. A complete snapshot starts exactly one request: [receiveFor] is
    called with the IBAN of the bank account, the currency, the numeric
    amount and the asset; the loading flag is set; the payment information,
    the amount error and the KYC flag of the previous quote stay as they are
    until the request settles. *)
Theorem complete_snapshot_issues_one_request (st : State) (b : BankAccount)
    (a : Asset) (c : Fiat) :
  bankAccount (data st) = Some b ->
  asset (data st) = Some a ->
  currency (data st) = Some c ->
  num_gt (toNumber_opt (amount (data st))) num_zero = true ->
  let st' := debounceElapsed st in
  calls st'
  = calls st
    ++ [CallReceiveFor (iban b) c (toNumber_opt (amount (data st))) a]
  /\ quotesInFlight st'
     = quotesInFlight st
       ++ [{| q_amount := toNumber_opt (amount (data st));
              q_assetName := asset_name a; q_data := data st |}]
  /\ isLoading st' = true
  /\ paymentInfo st' = paymentInfo st
  /\ customAmountError st' = customAmountError st
  /\ kycRequired st' = kycRequired st.
Proof.
  intros Hb Ha Hc Hgt.
  assert (Hd : validateData (data st) = Some (data st)).
  { unfold validateData. now rewrite Hb, Ha, Hc, Hgt. }
  unfold debounceElapsed, quoteRefreshEffect. simpl. rewrite Hd, Hb, Ha, Hc.
  destruct (validateData (debounced st)); simpl; auto 10.
Qed.

Lemma formEdit_frame (e : Event) (st : State) :
  is_formEdit e = true ->
  calls (step e st) = calls st
  /\ quotesInFlight (step e st) = quotesInFlight st
  /\ debounced (step e st) = debounced st
  /\ paymentInfo (step e st) = paymentInfo st
  /\ isLoading (step e st) = isLoading st.
Proof.
  destruct e; try discriminate; intros _; simpl.
  - unfold selectBankAccount, bankAccountEffect. simpl.
    destruct b as [b|]; [destruct (preferredCurrency b)|]; simpl; auto.
  - auto.
  - unfold changeAmount, enteredAmountEffect. simpl.
    destruct (amount_changed _ _); [destruct (negb _)|]; simpl; auto.
Qed.

Lemma formEdits_frame (evs : list Event) (st : State) :
  forallb is_formEdit evs = true ->
  calls (run evs st) = calls st
  /\ quotesInFlight (run evs st) = quotesInFlight st
  /\ debounced (run evs st) = debounced st
  /\ paymentInfo (run evs st) = paymentInfo st
  /\ isLoading (run evs st) = isLoading st.
Proof.
  revert st. induction evs as [|e evs IH]; simpl; intros st Hevs.
  - auto.
  - apply andb_true_iff in Hevs. destruct Hevs as [He Hevs].
    destruct (IH (step e st) Hevs) as (-> & -> & -> & -> & ->).
    now apply formEdit_frame.
Qed.

Lemma debounceElapsed_calls (st : State) :
  exists l : list Call,
    calls (debounceElapsed st) = calls st ++ l
    /\ (List.length l <= 1)%nat
    /\ forallb is_quoteCall l = true.
Proof.
  unfold debounceElapsed, quoteRefreshEffect. simpl.
  destruct (validateData (data st)) as [d|].
  - destruct (bankAccount d), (currency d), (asset d).
    1: destruct (validateData (debounced st));
       eexists; (split; [reflexivity | split; [simpl; lia | reflexivity]]).
    all: destruct (validateData (debounced st));
      exists []; rewrite app_nil_r; simpl; auto.
  - destruct (validateData (debounced st));
      exists []; rewrite app_nil_r; simpl; auto.
Qed.

(** X3. Editing the form never calls the quote service, however many edits
    there are: no call is made, nothing becomes pending, and the displayed
    quote stays.  The debounce that follows the edits makes at most one
    call, a [receiveFor]. *)
Theorem form_edits_are_coalesced (evs : list Event) (st : State) :
  forallb is_formEdit evs = true ->
  (calls (run evs st) = calls st
   /\ quotesInFlight (run evs st) = quotesInFlight st
   /\ paymentInfo (run evs st) = paymentInfo st
   /\ isLoading (run evs st) = isLoading st)
  /\ exists l : list Call,
       calls (run (evs ++ [DebounceElapsed]) st) = calls st ++ l
       /\ (List.length l <= 1)%nat
       /\ forallb is_quoteCall l = true.
Proof.
  intros Hevs.
  destruct (formEdits_frame evs st Hevs) as (Hc & Hq & _ & Hp & Hl).
  split; [auto|].
  assert (Hrun : forall (l1 l2 : list Event) (s : State),
            run (l1 ++ l2) s = run l2 (run l1 s)).
  { induction l1; simpl; auto. }
  rewrite Hrun. simpl.
  destruct (debounceElapsed_calls (run evs st)) as (l & Hl1 & Hl2 & Hl3).
  exists l. rewrite Hl1, Hc. auto.
Qed.

(** ** The loading flag *)

Lemma remove_nth_length {A : Type} (i : nat) (l : list A) (x : A) :
  nth_error l i = Some x ->
  S (List.length (remove_nth i l)) = List.length l.
Proof.
  revert i. induction l as [|y l IH]; intros [|i] Hx; simpl in *;
    try discriminate; auto.
Qed.

Lemma loading_has_pending_request_step (e : Event) (st : State) :
  (isLoading st = true -> quotesInFlight st <> []) ->
  isLoading (step e st) = true -> quotesInFlight (step e st) <> [].
Proof.
  intros Hinv. destruct e; simpl.
  - unfold assetEffect, changeAmount, enteredAmountEffect.
    destruct a; simpl; destruct (amount_changed _ _); simpl; auto.
  - unfold selectBankAccount, bankAccountEffect. simpl.
    destruct b as [b|]; [destruct (preferredCurrency b)|]; simpl; auto.
  - auto.
  - unfold changeAmount, enteredAmountEffect. simpl.
    destruct (amount_changed _ _); [destruct (negb _)|]; simpl; auto.
  - unfold debounceElapsed, quoteRefreshEffect. simpl.
    destruct (validateData (debounced st)), (validateData (data st)) as [d|];
      simpl; auto;
      destruct (bankAccount d), (currency d), (asset d); simpl; auto.
    all: intros _ Hnil; apply app_eq_nil in Hnil; destruct Hnil; discriminate.
  - unfold quoteSettled, quoteResolved, quoteRejected, checkForMinDeposit.
    unfold exec, bind, modify, ret.
    destruct (nth_error _ _); [|auto].
    destruct r as [sell | error].
    + destruct (num_gt _ _); simpl; discriminate.
    + destruct (identDataIncomplete error); simpl; discriminate.
  - destruct (showsPayment st); [|auto].
    unfold handleNext, updateBankAccount.
    destruct (validateData (debounced st)) as [v|]; [|auto].
    destruct (paymentInfo st); [|auto].
    destruct (_ && _); [|auto]. simpl.
    destruct (bankAccount (data st)); simpl; auto.
  - unfold updateSettled.
    destruct (nth_error _ _); [|auto]. destruct ok; simpl; auto.
  - unfold sendSettled.
    destruct (sendsInFlight st); [auto|]. destruct ok; simpl; auto.
Qed.

(** X4. In every reachable state the loading indicator is on only while a
    quote request is pending. *)
Theorem loading_has_pending_request (st : State) :
  reachable st -> isLoading st = true -> quotesInFlight st <> [].
Proof.
  induction 1 as [a | e st Hst IH].
  - discriminate.
  - now apply loading_has_pending_request_step.
Qed.

(** X5. A quote that arrives, whatever it holds, removes exactly its own
    request, clears the loading flag (also when other requests are still
    pending), and touches neither the form, nor the snapshot, nor the
    submission flags, nor the pending submissions, nor the calls made. *)
Theorem quote_arrival_frame (st : State) (i : nat) (q : QuoteRequest)
    (sell : Sell) :
  nth_error (quotesInFlight st) i = Some q ->
  let st' := quoteSettled i (inl sell) st in
  isLoading st' = false
  /\ quotesInFlight st' = remove_nth i (quotesInFlight st)
  /\ S (List.length (quotesInFlight st')) = List.length (quotesInFlight st)
  /\ data st' = data st
  /\ debounced st' = debounced st
  /\ isCompleting st' = isCompleting st
  /\ isCompleted st' = isCompleted st
  /\ updatesInFlight st' = updatesInFlight st
  /\ sendsInFlight st' = sendsInFlight st
  /\ calls st' = calls st.
Proof.
  intros Hq. unfold quoteSettled, quoteResolved, checkForMinDeposit.
  rewrite Hq. unfold exec, bind, modify, ret.
  pose proof (remove_nth_length _ _ _ Hq) as Hlen.
  destruct (num_gt (minVolume sell) (q_amount q)); simpl; auto 12.
Qed.

End QuoteRefresh.

Section Display.

Context {N : JsNumber} {H : Hooks}.

(** ** What the form displays *)

Lemma minimumDepositMessage_truthy (s : string) :
  minimumDepositMessage s -> truthy s = true.
Proof.
  intros [rest ->]. reflexivity.
Qed.

Lemma amountError_is_message_step (e : Event) (st : State) :
  (forall s, customAmountError st = Some s -> minimumDepositMessage s) ->
  forall s, customAmountError (step e st) = Some s -> minimumDepositMessage s.
Proof.
  intros Hinv. destruct e; simpl.
  - unfold assetEffect, changeAmount, enteredAmountEffect.
    destruct a; simpl; destruct (amount_changed _ _); simpl; auto;
      discriminate.
  - unfold selectBankAccount, bankAccountEffect. simpl.
    destruct b as [b|]; [destruct (preferredCurrency b)|]; simpl; auto.
  - auto.
  - unfold changeAmount, enteredAmountEffect. simpl.
    destruct (amount_changed _ _); [destruct (negb _)|]; simpl; auto;
      discriminate.
  - unfold debounceElapsed, quoteRefreshEffect. simpl.
    destruct (validateData (debounced st)), (validateData (data st)) as [d|];
      simpl; auto;
      destruct (bankAccount d), (currency d), (asset d); simpl; auto.
  - unfold quoteSettled, quoteResolved, quoteRejected, checkForMinDeposit.
    unfold exec, bind, modify, ret.
    destruct (nth_error _ _) as [q|]; [|auto].
    destruct r as [sell | error].
    + destruct (num_gt _ _); simpl; [|discriminate].
      intros s [= <-]. eexists. reflexivity.
    + destruct (identDataIncomplete error); simpl; auto.
  - destruct (showsPayment st); [|auto].
    unfold handleNext, updateBankAccount.
    destruct (validateData (debounced st)) as [v|]; [|auto].
    destruct (paymentInfo st); [|auto].
    destruct (_ && _); [|auto]. simpl.
    destruct (bankAccount (data st)); simpl; auto.
  - unfold updateSettled.
    destruct (nth_error _ _); [|auto]. destruct ok; simpl; auto.
  - unfold sendSettled.
    destruct (sendsInFlight st); [auto|]. destruct ok; simpl; auto.
Qed.

Lemma amountError_is_message (st : State) (s : string) :
  reachable st -> customAmountError st = Some s -> minimumDepositMessage s.
Proof.
  intros Hst. revert s. induction Hst as [a | e st Hst IH].
  - discriminate.
  - now apply amountError_is_message_step.
Qed.

(** X6. In every reachable state the amount error, when set, is a
    minimum-deposit message, hence a non-empty string: the two tests the
    render uses, [customAmountError != null] and [!customAmountError], agree,
    and the input is flagged exactly when the KYC flag is set or a message is
    shown. *)
Theorem amountError_is_minimum_deposit_message (st : State) :
  reachable st ->
  (forall s, customAmountError st = Some s ->
             minimumDepositMessage s /\ truthy s = true)
  /\ present (customAmountError st) = truthy_opt (customAmountError st)
  /\ forceError st = kycRequired st || truthy_opt (customAmountError st).
Proof.
  intros Hst.
  assert (Hmsg : forall s, customAmountError st = Some s ->
                           minimumDepositMessage s /\ truthy s = true).
  { intros s Hs. pose proof (amountError_is_message st s Hst Hs) as Hm.
    split; [exact Hm | now apply minimumDepositMessage_truthy]. }
  split; [exact Hmsg|].
  unfold forceError.
  destruct (customAmountError st) as [s|]; simpl; [|auto].
  destruct (Hmsg s eq_refl) as [_ ->]. auto.
Qed.

(** X7. In every reachable state the form shows at most one of the
    minimum-deposit message, the KYC hint and the payment details with the
    submit button; the first two flag the amount input, and outside the
    Entering phase neither the hint nor the payment details are shown. *)
Theorem form_shows_at_most_one_notice (st : State) :
  reachable st ->
  (showsPayment st = true ->
   showsKycHint st = false /\ customAmountError st = None
   /\ forceError st = false)
  /\ (showsKycHint st = true ->
      showsPayment st = false /\ customAmountError st = None
      /\ forceError st = true)
  /\ (customAmountError st <> None ->
      showsPayment st = false /\ showsKycHint st = false
      /\ forceError st = true)
  /\ (phase st <> Entering ->
      showsPayment st = false /\ showsKycHint st = false).
Proof.
  intros Hst.
  pose proof (error_excludes_paymentInfo st Hst) as Hexcl.
  pose proof (amountError_is_message st) as Hmsg.
  unfold showsPayment, showsKycHint, forceError, entering, phase.
  destruct (customAmountError st) as [s|] eqn:Hs.
  - pose proof (minimumDepositMessage_truthy s (Hmsg s Hst eq_refl)) as Ht.
    destruct Hexcl as [-> | Hx]; [|discriminate].
    simpl. rewrite Ht.
    destruct (isCompleting st), (isCompleted st), (kycRequired st); simpl;
      repeat split; intros; try discriminate; try congruence.
  - simpl.
    destruct (isCompleting st), (isCompleted st), (kycRequired st),
      (paymentInfo st); simpl;
      repeat split; intros; try discriminate; try congruence.
Qed.

(** ** Projection of a quote: edge cases *)

(** X8. No quote projects to no payment information; a quote always projects
    to one.  Its estimated-amount line is never empty, so it is always
    rendered; a missing payment request becomes the empty string; without a
    currency in the form the minimum fee is absent and the currency name is
    empty; and whenever [minFeeTarget] is not above zero or the currency is
    missing, the fee row shows the plain fee. *)
Theorem toPaymentInformation_edges (d : FormData) :
  toPaymentInformation d None = None
  /\ forall sell : Sell,
       exists p : PaymentInformation,
         toPaymentInformation d (Some sell) = Some p
         /\ showsEstimatedAmount p = true
         /\ pi_fee p = (num_toString (fee sell) ++ " %")%string
         /\ (paymentRequest sell = None -> pi_paymentRequest p = "")
         /\ (forall r, paymentRequest sell = Some r ->
                       pi_paymentRequest p = r)
         /\ (currency d = None ->
             pi_minFee p = None
             /\ pi_estimatedAmount p
                = ("≈ " ++ num_toString (estimatedAmount sell)
                   ++ "  (incl. DFX fees)")%string)
         /\ (num_gt (minFeeTarget sell) num_zero = false
             \/ currency d = None ->
             feeRow p = (num_toString (fee sell) ++ " %")%string)
         /\ (forall c, num_gt (minFeeTarget sell) num_zero = true ->
                       currency d = Some c ->
                       pi_minFee p
                       = Some (num_toString (minFeeTarget sell)
                               ++ toSymbol c)%string).
Proof.
  split; [reflexivity|].
  intros sell. eexists. split; [reflexivity|]. simpl.
  split; [reflexivity|]. split; [reflexivity|].
  split; [intros ->; reflexivity|].
  split; [intros r ->; reflexivity|].
  split; [intros ->; simpl; destruct (num_gt _ _); auto|].
  split.
  - unfold feeRow. simpl.
    intros [-> | ->]; [reflexivity|]. now destruct (num_gt _ _).
  - intros c -> ->. reflexivity.
Qed.

End Display.

Section Submission.

Context {N : JsNumber} {H : Hooks}.

(** ** Starting a submission *)

(** X9. With every precondition met and a bank account selected in the
    form, [handleNext] sets Completing, so the waiting screen is rendered,
    and calls [updateAccount] once, with the id of the bank account selected
    in the form and the currency of the form as preferred currency; no
    payment is sent yet and nothing else changes. *)
Theorem handleNext_starts_submission (address : option string) (st : State)
    (v : FormData) (pi : PaymentInformation) (b : BankAccount) :
  validateData (debounced st) = Some v ->
  truthy_opt (amount v) = true ->
  truthy_opt address = true ->
  paymentInfo st = Some pi ->
  bankAccount (data st) = Some b ->
  let st' := handleNext address st in
  isCompleting st' = true
  /\ phase st' = Completing
  /\ calls st'
     = calls st ++ [CallUpdateAccount (bank_id b) (currency (data st))]
  /\ updatesInFlight st' = updatesInFlight st ++ [pi]
  /\ sendsInFlight st' = sendsInFlight st
  /\ isCompleted st' = isCompleted st
  /\ paymentInfo st' = paymentInfo st
  /\ customAmountError st' = customAmountError st
  /\ kycRequired st' = kycRequired st
  /\ isLoading st' = isLoading st
  /\ data st' = data st
  /\ debounced st' = debounced st
  /\ quotesInFlight st' = quotesInFlight st.
Proof.
  intros Hv Ha Hw Hp Hb.
  rewrite (handleNext_proceeds _ _ _ _ _ Hv Ha Hw Hp Hb).
  unfold phase. simpl. auto 15.
Qed.

(** X10. When the preconditions are met but the form holds no bank account
    any more (it was cleared after the snapshot was taken), [handleNext]
    sets Completing and stops: no call is made and nothing is pending that
    could clear the flag. *)
Theorem handleNext_without_bankAccount (address : option string) (st : State)
    (v : FormData) (pi : PaymentInformation) :
  validateData (debounced st) = Some v ->
  truthy_opt (amount v) = true ->
  truthy_opt address = true ->
  paymentInfo st = Some pi ->
  bankAccount (data st) = None ->
  let st' := handleNext address st in
  isCompleting st' = true
  /\ calls st' = calls st
  /\ updatesInFlight st' = updatesInFlight st
  /\ sendsInFlight st' = sendsInFlight st
  /\ isCompleted st' = isCompleted st.
Proof.
  intros Hv Ha Hw Hp Hb. unfold handleNext, updateBankAccount.
  destruct (validateData_fields _ _ Hv) as (_ & Has & _).
  rewrite Hv, Hp, Ha, Has, Hw. simpl. rewrite Hb. simpl. auto.
Qed.

(** ** Order of the calls *)

Lemma count_snoc (f : Call -> bool) (l : list Call) (c : Call) :
  count f (l ++ [c]) = (count f l + if f c then 1 else 0)%nat.
Proof.
  unfold count. rewrite filter_app, length_app. simpl.
  now destruct (f c).
Qed.

Lemma update_precedes_send_step (e : Event) (st : State) :
  (count is_sendCall (calls st) + List.length (updatesInFlight st)
   <= count is_updateCall (calls st))%nat
  /\ (sendsInFlight st <= count is_sendCall (calls st))%nat ->
  (count is_sendCall (calls (step e st))
   + List.length (updatesInFlight (step e st))
   <= count is_updateCall (calls (step e st)))%nat
  /\ (sendsInFlight (step e st) <= count is_sendCall (calls (step e st)))%nat.
Proof.
  intros [Hu Hs]. destruct e; simpl.
  - unfold assetEffect, changeAmount, enteredAmountEffect.
    destruct a; simpl; destruct (amount_changed _ _); simpl; auto.
  - unfold selectBankAccount, bankAccountEffect. simpl.
    destruct b as [b|]; [destruct (preferredCurrency b)|]; simpl; auto.
  - auto.
  - unfold changeAmount, enteredAmountEffect. simpl.
    destruct (amount_changed _ _); [destruct (negb _)|]; simpl; auto.
  - unfold debounceElapsed, quoteRefreshEffect. simpl.
    destruct (validateData (debounced st)), (validateData (data st)) as [d|];
      simpl; auto;
      destruct (bankAccount d), (currency d), (asset d); simpl; auto.
    all: rewrite !count_snoc; simpl; lia.
  - unfold quoteSettled, quoteResolved, quoteRejected, checkForMinDeposit.
    unfold exec, bind, modify, ret.
    destruct (nth_error _ _) as [q|]; [|auto].
    destruct r as [sell | error].
    + destruct (num_gt _ _); simpl; auto.
    + destruct (identDataIncomplete error); simpl; auto.
  - destruct (showsPayment st); [|auto].
    unfold handleNext, updateBankAccount.
    destruct (validateData (debounced st)) as [v|]; [|auto].
    destruct (paymentInfo st); [|auto].
    destruct (_ && _); [|auto]. simpl.
    destruct (bankAccount (data st)); simpl; auto.
    rewrite !count_snoc, length_app. simpl. lia.
  - unfold updateSettled.
    destruct (nth_error _ _) eqn:Hn; [|auto].
    pose proof (remove_nth_length _ _ _ Hn) as Hlen.
    destruct ok; simpl.
    + rewrite !count_snoc. simpl. lia.
    + lia.
  - unfold sendSettled.
    destruct (sendsInFlight st) eqn:Hn; [rewrite Hn; auto|].
    destruct ok; simpl; lia.
Qed.

(** X11. In every reachable state at most as many payments were sent as
    account updates were issued before: [sendPayment] is never called
    without a preceding [updateAccount], and the sends still pending are
    among the payments sent. *)
Theorem payment_never_sent_without_update (st : State) :
  reachable st ->
  (count is_sendCall (calls st) + List.length (updatesInFlight st)
   <= count is_updateCall (calls st))%nat
  /\ (sendsInFlight st <= count is_sendCall (calls st))%nat.
Proof.
  induction 1 as [a | e st Hst IH].
  - simpl. unfold count. simpl. lia.
  - now apply update_precedes_send_step.
Qed.

End Submission.

Section Lifecycle.

Context {N : JsNumber} {H : Hooks}.

(** ** The Completed phase *)

Lemma count_pos_In (f : Call -> bool) (l : list Call) :
  (1 <= count f l)%nat -> exists c, In c l /\ f c = true.
Proof.
  unfold count. destruct (filter f l) as [|c l'] eqn:Hf; simpl; [lia|].
  intros _. exists c. apply filter_In. rewrite Hf. now left.
Qed.

Lemma completed_has_sent_step (e : Event) (st : State) :
  (sendsInFlight st <= count is_sendCall (calls st))%nat ->
  (isCompleted st = true -> (1 <= count is_sendCall (calls st))%nat) ->
  isCompleted (step e st) = true ->
  (1 <= count is_sendCall (calls (step e st)))%nat.
Proof.
  intros Hs Hinv. destruct e; simpl.
  - unfold assetEffect, changeAmount, enteredAmountEffect.
    destruct a; simpl; destruct (amount_changed _ _); simpl; discriminate.
  - unfold selectBankAccount, bankAccountEffect. simpl.
    destruct b as [b|]; [destruct (preferredCurrency b)|]; simpl; auto.
  - auto.
  - unfold changeAmount, enteredAmountEffect. simpl.
    destruct (amount_changed _ _); [destruct (negb _)|]; simpl; auto.
  - unfold debounceElapsed, quoteRefreshEffect. simpl.
    destruct (validateData (debounced st)), (validateData (data st)) as [d|];
      simpl; auto;
      destruct (bankAccount d), (currency d), (asset d); simpl; auto.
    all: intros Hc; rewrite count_snoc; specialize (Hinv Hc); lia.
  - unfold quoteSettled, quoteResolved, quoteRejected, checkForMinDeposit.
    unfold exec, bind, modify, ret.
    destruct (nth_error _ _) as [q|]; [|auto].
    destruct r as [sell | error].
    + destruct (num_gt _ _); simpl; auto.
    + destruct (identDataIncomplete error); simpl; auto.
  - destruct (showsPayment st); [|auto].
    unfold handleNext, updateBankAccount.
    destruct (validateData (debounced st)) as [v|]; [|auto].
    destruct (paymentInfo st); [|auto].
    destruct (_ && _); [|auto]. simpl.
    destruct (bankAccount (data st)); simpl; auto.
    intros Hc. rewrite count_snoc. specialize (Hinv Hc). lia.
  - unfold updateSettled.
    destruct (nth_error _ _); [|auto].
    destruct ok; simpl; auto.
    intros _. rewrite count_snoc. simpl. lia.
  - unfold sendSettled.
    destruct (sendsInFlight st) eqn:Hn; [auto|].
    destruct ok; simpl; intros Hc; [lia | auto].
Qed.

(** X12. In every reachable state the Completed flag is set only after
    [sendPayment] was called: the success screen is never shown for a
    payment that was not sent. *)
Theorem completed_only_after_payment_sent (st : State) :
  reachable st ->
  isCompleted st = true ->
  exists request : string, In (CallSendPayment request) (calls st).
Proof.
  intros Hst Hc.
  assert (Hcount : (isCompleted st = true ->
                    (1 <= count is_sendCall (calls st))%nat)
                   /\ (count is_sendCall (calls st)
                       + List.length (updatesInFlight st)
                       <= count is_updateCall (calls st))%nat
                   /\ (sendsInFlight st <= count is_sendCall (calls st))%nat).
  { clear Hc. induction Hst as [a | e st Hst (IH1 & IH2 & IH3)].
    - split; [discriminate|]. unfold count. simpl. lia.
    - split.
      + now apply completed_has_sent_step.
      + now apply update_precedes_send_step. }
  destruct Hcount as (Hone & _).
  destruct (count_pos_In _ _ (Hone Hc)) as (c & Hin & Hsend).
  destruct c; try discriminate. now exists request.
Qed.

(** ** The payment request that is sent *)

Lemma first_update_kept (e : Event) (st : State) (pi : PaymentInformation) :
  is_UpdateSettled e = false ->
  nth_error (updatesInFlight st) 0 = Some pi ->
  nth_error (updatesInFlight (step e st)) 0 = Some pi.
Proof.
  intros He Hpi. destruct e; try discriminate; simpl.
  - unfold assetEffect, changeAmount, enteredAmountEffect.
    destruct a; simpl; destruct (amount_changed _ _); simpl; auto.
  - unfold selectBankAccount, bankAccountEffect. simpl.
    destruct b as [b|]; [destruct (preferredCurrency b)|]; simpl; auto.
  - auto.
  - unfold changeAmount, enteredAmountEffect. simpl.
    destruct (amount_changed _ _); [destruct (negb _)|]; simpl; auto.
  - unfold debounceElapsed, quoteRefreshEffect. simpl.
    destruct (validateData (debounced st)), (validateData (data st)) as [d|];
      simpl; auto;
      destruct (bankAccount d), (currency d), (asset d); simpl; auto.
  - unfold quoteSettled, quoteResolved, quoteRejected, checkForMinDeposit.
    unfold exec, bind, modify, ret.
    destruct (nth_error (quotesInFlight st) i) as [q|]; [|auto].
    destruct r as [sell | error].
    + destruct (num_gt _ _); simpl; auto.
    + destruct (identDataIncomplete error); simpl; auto.
  - destruct (showsPayment st); [|auto].
    unfold handleNext, updateBankAccount.
    destruct (validateData (debounced st)) as [v|]; [|auto].
    destruct (paymentInfo st); [|auto].
    destruct (_ && _); [|auto]. simpl.
    destruct (bankAccount (data st)); simpl; auto.
    destruct (updatesInFlight st); [discriminate | exact Hpi].
  - unfold sendSettled.
    destruct (sendsInFlight st); [auto|]. destruct ok; simpl; auto.
Qed.

Lemma first_update_kept_run (evs : list Event) (st : State)
    (pi : PaymentInformation) :
  forallb (fun e => negb (is_UpdateSettled e)) evs = true ->
  nth_error (updatesInFlight st) 0 = Some pi ->
  nth_error (updatesInFlight (run evs st)) 0 = Some pi.
Proof.
  revert st. induction evs as [|e evs IH]; simpl; intros st Hevs Hpi.
  - exact Hpi.
  - apply andb_true_iff in Hevs. destruct Hevs as [He Hevs].
    apply negb_true_iff in He.
    apply IH; [exact Hevs|]. now apply first_update_kept.
Qed.

(** X13. The payment request that is sent is the one that was displayed
    when the button was clicked: whatever happens while the account update
    is pending (edits, new quotes that replace or clear the payment
    information, a change of the asset), when the update resolves
    [sendPayment] is called with the payment request of the click. *)
Theorem sent_request_is_the_one_clicked (address : option string)
    (st : State) (v : FormData) (pi : PaymentInformation) (b : BankAccount)
    (evs : list Event) :
  validateData (debounced st) = Some v ->
  truthy_opt (amount v) = true ->
  truthy_opt address = true ->
  paymentInfo st = Some pi ->
  bankAccount (data st) = Some b ->
  updatesInFlight st = [] ->
  forallb (fun e => negb (is_UpdateSettled e)) evs = true ->
  let st1 := run evs (handleNext address st) in
  let st2 := updateSettled 0 true st1 in
  calls st2 = calls st1 ++ [CallSendPayment (pi_paymentRequest pi)]
  /\ sendsInFlight st2 = S (sendsInFlight st1).
Proof.
  intros Hv Ha Hw Hp Hb Hu Hevs. cbv zeta.
  assert (Hfirst : nth_error (updatesInFlight (handleNext address st)) 0
                   = Some pi).
  { rewrite (handleNext_proceeds _ _ _ _ _ Hv Ha Hw Hp Hb). simpl.
    now rewrite Hu. }
  pose proof (first_update_kept_run evs _ pi Hevs Hfirst) as Hrun.
  unfold updateSettled. rewrite Hrun. simpl. auto.
Qed.

(** ** The [asset] prop and the pending work *)

(** X14. A change of the [asset] prop cancels nothing: the stored payment
    information, the snapshot, the pending quote requests, account updates
    and sends and the loading flag are as before; a send that resolves
    afterwards still switches to the success screen; a pending account
    update that resolves afterwards still sends its payment.  Applying the
    same change twice is the same as applying it once. *)
Theorem asset_change_cancels_nothing (a : option Asset) (st : State) :
  let st' := assetEffect a st in
  (paymentInfo st' = paymentInfo st
   /\ debounced st' = debounced st
   /\ quotesInFlight st' = quotesInFlight st
   /\ updatesInFlight st' = updatesInFlight st
   /\ sendsInFlight st' = sendsInFlight st
   /\ isLoading st' = isLoading st
   /\ calls st' = calls st)
  /\ (sendsInFlight st <> 0 -> phase (sendSettled true st') = Completed)
  /\ (forall i pi,
        nth_error (updatesInFlight st) i = Some pi ->
        calls (updateSettled i true st')
        = calls st ++ [CallSendPayment (pi_paymentRequest pi)])
  /\ assetEffect a st' = st'.
Proof.
  cbv zeta.
  assert (Hframe : paymentInfo (assetEffect a st) = paymentInfo st
                   /\ debounced (assetEffect a st) = debounced st
                   /\ quotesInFlight (assetEffect a st) = quotesInFlight st
                   /\ updatesInFlight (assetEffect a st) = updatesInFlight st
                   /\ sendsInFlight (assetEffect a st) = sendsInFlight st
                   /\ isLoading (assetEffect a st) = isLoading st
                   /\ calls (assetEffect a st) = calls st).
  { unfold assetEffect, changeAmount, enteredAmountEffect.
    destruct a; simpl; destruct (amount_changed _ _); simpl; auto 10. }
  split; [exact Hframe|].
  destruct Hframe as (_ & _ & _ & Hu & Hs & _ & Hc).
  split; [|split].
  - intros Hn. unfold sendSettled, phase. rewrite Hs.
    destruct (sendsInFlight st); [congruence | reflexivity].
  - intros i pi Hpi. unfold updateSettled. rewrite Hu, Hpi.
    remember (assetEffect a st) as s eqn:Heqs. simpl. now rewrite Hc.
  - unfold assetEffect, changeAmount, enteredAmountEffect.
    destruct a; simpl;
      destruct (amount_changed (amount (data st)) (Some "")); reflexivity.
Qed.

(** ** Bank account and preferred currency *)

(** X15. Selecting a bank account that declares a preferred currency puts
    that currency in the form; an account without one, or no account, leaves
    the currency as it was; asset and amount are never touched.  A currency
    chosen afterwards replaces it and keeps the account.  On submission the
    currency of the form is what is written back as the account's preferred
    currency. *)
Theorem bankAccount_selection_syncs_currency (st : State) :
  (forall b c,
     preferredCurrency b = Some c ->
     currency (data (selectBankAccount (Some b) st)) = Some c)
  /\ (forall b,
        preferredCurrency b = None ->
        currency (data (selectBankAccount (Some b) st)) = currency (data st))
  /\ currency (data (selectBankAccount None st)) = currency (data st)
  /\ (forall b,
        bankAccount (data (selectBankAccount b st)) = b
        /\ asset (data (selectBankAccount b st)) = asset (data st)
        /\ amount (data (selectBankAccount b st)) = amount (data st))
  /\ (forall b c',
        let st' := selectCurrency c' (selectBankAccount (Some b) st) in
        bankAccount (data st') = Some b /\ currency (data st') = c')
  /\ (forall b c pi,
        preferredCurrency b = Some c ->
        calls (updateBankAccount pi (selectBankAccount (Some b) st))
        = calls st ++ [CallUpdateAccount (bank_id b) (Some c)])
  /\ (forall b c' pi,
        calls (updateBankAccount pi
                 (selectCurrency c' (selectBankAccount (Some b) st)))
        = calls st ++ [CallUpdateAccount (bank_id b) c']).
Proof.
  unfold selectBankAccount, selectCurrency, bankAccountEffect,
    updateBankAccount. simpl.
  split; [intros b c ->; reflexivity|].
  split; [intros b ->; reflexivity|].
  split; [reflexivity|].
  split.
  { intros b. destruct b as [b|]; [destruct (preferredCurrency b)|];
      simpl; auto. }
  split.
  { intros b c'. destruct (preferredCurrency b); simpl; auto. }
  split; [intros b c pi ->; reflexivity|].
  intros b c' pi. destruct (preferredCurrency b); reflexivity.
Qed.

End Lifecycle.

(** * Scenarios for the further properties *)

Section MoreScenarios.

Import Scenario.

Lemma reachable_waiting : reachable (H := hooks) waiting.
Proof.
  apply reachable_run, reachable_init.
Qed.

Lemma reachable_quoted : reachable (H := hooks) quoted.
Proof.
  apply reachable_run, reachable_waiting.
Qed.

Lemma reachable_belowMinimum : reachable (H := hooks) belowMinimum.
Proof.
  apply reachable_run, reachable_waiting.
Qed.

Lemma reachable_completed : reachable (H := hooks) completed.
Proof.
  apply reachable_run, reachable_run, reachable_quoted.
Qed.

Lemma incomplete_snapshot_issues_no_request_witness :
  calls (debounceElapsed mounted) = calls mounted
  /\ quotesInFlight (debounceElapsed mounted) = quotesInFlight mounted
  /\ isLoading (debounceElapsed mounted) = isLoading mounted.
Proof.
  apply (incomplete_snapshot_issues_no_request mounted).
  left. reflexivity.
Defined.

Lemma complete_snapshot_issues_one_request_witness :
  let st := run (H := hooks) [EnterAmount "150"] quoted in
  calls (debounceElapsed st)
  = calls st ++ [CallReceiveFor "DE89..." EUR (JInt 150) BTC]
  /\ isLoading (debounceElapsed st) = true
  /\ paymentInfo (debounceElapsed st) = Some information.
Proof.
  destruct (complete_snapshot_issues_one_request
              (run (H := hooks) [EnterAmount "150"] quoted)
              account BTC EUR eq_refl eq_refl eq_refl eq_refl)
    as (Hc & _ & Hl & Hp & _).
  cbv zeta. split; [exact Hc | split; [exact Hl | exact Hp]].
Defined.

Lemma form_edits_are_coalesced_witness :
  let evs := [EnterAmount "1"; EnterAmount "15"; EnterAmount "150";
              SelectCurrency (Some EUR)] in
  calls (run (H := hooks) evs quoted) = calls quoted
  /\ exists l,
       calls (run (H := hooks) (evs ++ [DebounceElapsed]) quoted)
       = calls quoted ++ l
       /\ (List.length l <= 1)%nat.
Proof.
  destruct (form_edits_are_coalesced (H := hooks)
              [EnterAmount "1"; EnterAmount "15"; EnterAmount "150";
               SelectCurrency (Some EUR)] quoted eq_refl)
    as ((Hc & _) & l & Hl & Hn & _).
  cbv zeta. split; [exact Hc|]. exists l. split; [exact Hl | exact Hn].
Defined.

Lemma loading_has_pending_request_witness :
  isLoading waiting = true /\ quotesInFlight waiting <> [].
Proof.
  split; [reflexivity|].
  apply (loading_has_pending_request (H := hooks) waiting).
  - exact reachable_waiting.
  - reflexivity.
Defined.

Lemma quote_arrival_frame_witness :
  let st' := quoteSettled (H := hooks) 0 (inl (quote 10)) waiting in
  isLoading st' = false
  /\ quotesInFlight st' = []
  /\ data st' = data waiting
  /\ calls st' = calls waiting.
Proof.
  destruct (quote_arrival_frame (H := hooks) waiting 0 request (quote 10)
              eq_refl)
    as (Hl & Hq & _ & Hd & _ & _ & _ & _ & _ & Hc).
  cbv zeta. split; [exact Hl | split; [exact Hq | split; [exact Hd|exact Hc]]].
Defined.

Lemma amountError_is_minimum_deposit_message_witness :
  (forall s, customAmountError belowMinimum = Some s ->
             minimumDepositMessage s /\ truthy s = true)
  /\ forceError belowMinimum = true.
Proof.
  destruct (amountError_is_minimum_deposit_message (H := hooks) belowMinimum
              reachable_belowMinimum) as (Hm & _ & Hf).
  split; [exact Hm|]. rewrite Hf. reflexivity.
Defined.

Lemma form_shows_at_most_one_notice_witness :
  (showsKycHint quoted = false /\ customAmountError quoted = None
   /\ forceError quoted = false)
  /\ (showsPayment belowMinimum = false /\ showsKycHint belowMinimum = false
      /\ forceError belowMinimum = true)
  /\ (showsPayment completed = false /\ showsKycHint completed = false).
Proof.
  split; [|split].
  - apply (proj1 (form_shows_at_most_one_notice (H := hooks) quoted
                    reachable_quoted)).
    reflexivity.
  - apply (proj1 (proj2 (proj2 (form_shows_at_most_one_notice (H := hooks)
                                  belowMinimum reachable_belowMinimum)))).
    discriminate.
  - apply (proj2 (proj2 (proj2 (form_shows_at_most_one_notice (H := hooks)
                                  completed reachable_completed)))).
    discriminate.
Defined.

Lemma toPaymentInformation_edges_witness :
  exists p : PaymentInformation,
    toPaymentInformation (H := hooks) (data mounted) (Some quoteWithMinFee)
    = Some p
    /\ pi_paymentRequest p = ""
    /\ pi_minFee p = None
    /\ feeRow p = "2 %".
Proof.
  destruct (proj2 (toPaymentInformation_edges (H := hooks) (data mounted))
              quoteWithMinFee)
    as (p & Hp & _ & _ & Hr & _ & Hc & Hf & _).
  exists p. split; [exact Hp|]. split; [apply Hr; reflexivity|].
  split; [apply Hc; reflexivity|].
  apply Hf. right. reflexivity.
Defined.

Lemma handleNext_starts_submission_witness :
  let st' := handleNext wallet quoted in
  isCompleting st' = true
  /\ phase st' = Completing
  /\ calls st' = calls quoted ++ [CallUpdateAccount 7 (Some EUR)]
  /\ updatesInFlight st' = [information].
Proof.
  destruct (handleNext_starts_submission wallet quoted (debounced quoted)
              information account eq_refl eq_refl eq_refl eq_refl eq_refl)
    as (Hi & Hph & Hc & Hu & _).
  cbv zeta. split; [exact Hi | split; [exact Hph | split; [exact Hc|exact Hu]]].
Defined.

Lemma handleNext_without_bankAccount_witness :
  let st := run (H := hooks) [SelectBankAccount None] quoted in
  isCompleting (handleNext wallet st) = true
  /\ calls (handleNext wallet st) = calls st
  /\ updatesInFlight (handleNext wallet st) = [].
Proof.
  destruct (handleNext_without_bankAccount wallet
              (run (H := hooks) [SelectBankAccount None] quoted)
              (debounced quoted) information
              eq_refl eq_refl eq_refl eq_refl eq_refl)
    as (Hi & Hc & Hu & _).
  cbv zeta. split; [exact Hi | split; [exact Hc | exact Hu]].
Defined.

Lemma payment_never_sent_without_update_witness :
  (count is_sendCall (calls completed)
   + List.length (updatesInFlight completed)
   <= count is_updateCall (calls completed))%nat
  /\ (sendsInFlight completed <= count is_sendCall (calls completed))%nat.
Proof.
  apply (payment_never_sent_without_update (H := hooks) completed).
  exact reachable_completed.
Defined.

Lemma completed_only_after_payment_sent_witness :
  exists request : string, In (CallSendPayment request) (calls completed).
Proof.
  apply (completed_only_after_payment_sent (H := hooks) completed).
  - exact reachable_completed.
  - reflexivity.
Defined.

Lemma sent_request_is_the_one_clicked_witness :
  let st1 := run (H := hooks)
               [EnterAmount "150"; DebounceElapsed;
                QuoteSettled 0 (inl (quote 200)); AssetProp None]
               (handleNext wallet quoted) in
  paymentInfo st1 = None
  /\ calls (updateSettled 0 true st1)
     = calls st1 ++ [CallSendPayment "pay:xyz"].
Proof.
  split; [reflexivity|].
  apply (sent_request_is_the_one_clicked (H := hooks) wallet quoted
           (debounced quoted) information account
           [EnterAmount "150"; DebounceElapsed;
            QuoteSettled 0 (inl (quote 200)); AssetProp None]);
    reflexivity.
Defined.

Lemma asset_change_cancels_nothing_witness :
  let st' := assetEffect None sending in
  phase st' = Entering
  /\ sendsInFlight st' = 1%nat
  /\ phase (sendSettled true st') = Completed.
Proof.
  destruct (asset_change_cancels_nothing None sending)
    as ((_ & _ & _ & _ & Hs & _) & Hdone & _).
  cbv zeta. split; [reflexivity|]. split; [exact Hs|].
  apply Hdone. discriminate.
Defined.

Lemma bankAccount_selection_syncs_currency_witness :
  currency (data (selectBankAccount (Some account) mounted)) = Some EUR
  /\ calls (updateBankAccount information
              (selectBankAccount (Some account) mounted))
     = [CallUpdateAccount 7 (Some EUR)].
Proof.
  destruct (bankAccount_selection_syncs_currency mounted)
    as (Hsync & _ & _ & _ & _ & Hback & _).
  split.
  - apply (Hsync account EUR). reflexivity.
  - apply (Hback account EUR information). reflexivity.
Defined.

End MoreScenarios.
